(** * RockRider backend: feed selection and post likes

    A shallow embedding of the feed endpoints of the posts router
    (GET /feed/following, GET /feed/for-you, GET /discover) and of the
    like/unlike/isLikedBy methods of the Post model, followed by the
    properties established about them.

    Conventions of the embedding:
    - a MongoDB collection is the list of its documents, in natural order;
    - a Mongoose query [find(...).sort(...).skip(...).limit(...)] is the
      composition of a boolean filter, a sort, a skip and a limit on that
      list; a query the server rejects is [None];
    - [Date.now()] is an explicit argument [now], in milliseconds;
    - JavaScript numbers that are integers in the code are [Z]. *)

From Stdlib Require Import Strings.String Strings.HexString.
From Stdlib Require Import List ZArith NArith Bool Lia Permutation Sorted.
Import ListNotations.

Local Open Scope Z_scope.

(** ** Object identifiers *)

(** A 12-byte ObjectId, as the number it encodes. *)
Definition ObjectId := N.

(** [ObjectId.prototype.toString]: the hexadecimal rendering. *)
Definition toString (id : ObjectId) : string := HexString.of_N id.

(** [ObjectId.prototype.equals]. *)
Definition equals (a b : ObjectId) : bool := N.eqb a b.

(** [$in] and [$nin] on an array of identifiers. *)
Definition mem (x : ObjectId) (l : list ObjectId) : bool :=
  existsb (fun y => equals y x) l.

Arguments mem : simpl never.

(** ** The User model *)

Inductive UserType := artist | fan.

Definition UserType_eqb (a b : UserType) : bool :=
  match a, b with
  | artist, artist | fan, fan => true
  | _, _ => false
  end.

Module User.

Record t := mk {
  _id : ObjectId;
  userType : UserType;
  following : list ObjectId;
  isVerified : bool;
  isActive : bool
}.

(** [User.findById(id)]: the document or null. *)
Definition findById (users : list t) (id : ObjectId) : option t :=
  find (fun u => equals (_id u) id) users.

End User.

(** ** The Post model *)

Record Comment := mkComment {
  comment_user : ObjectId;
  comment_text : string
}.

Module Post.

Record t := mk {
  _id : ObjectId;
  author : ObjectId;
  content : string;
  likes : list ObjectId;
  comments : list Comment;
  isActive : bool;
  isPinned : bool;
  createdAt : Z
}.

Definition set_likes (this : t) (l : list ObjectId) : t :=
  mk (_id this) (author this) (content this) l (comments this)
     (isActive this) (isPinned this) (createdAt this).

(** The virtual fields. *)
Definition likesCount (this : t) : nat := length (likes this).
Definition commentsCount (this : t) : nat := length (comments this).

(** [postSchema.methods.like]: push the user unless some like equals it.
    The user id is already an ObjectId here, so its conversion is the
    identity; the result is the document that [save] stores. *)
Definition like (this : t) (userId : ObjectId) : t :=
  if negb (existsb (fun id => equals id userId) (likes this))
  then set_likes this (likes this ++ [userId])
  else this.

(** [postSchema.methods.unlike]: keep the likes that differ from the user. *)
Definition unlike (this : t) (userId : ObjectId) : t :=
  set_likes this (filter (fun id => negb (equals id userId)) (likes this)).

(** [postSchema.methods.isLikedBy]: false on a missing user id. *)
Definition isLikedBy (this : t) (userId : option ObjectId) : bool :=
  match userId with
  | None => false
  | Some u => existsb (fun id => equals id u) (likes this)
  end.

End Post.

(** ** JavaScript array operations used by the router *)

Section ArrayOps.

Context {A : Type}.

(** [Array.prototype.findIndex]: index of the first match, or -1. *)
Fixpoint findIndex_from (f : A -> bool) (l : list A) (i : Z) : Z :=
  match l with
  | [] => -1
  | x :: t => if f x then i else findIndex_from f t (i + 1)
  end.

Definition findIndex (f : A -> bool) (l : list A) : Z :=
  findIndex_from f l 0.

(** [Array.prototype.filter] with a callback on element and index. *)
Fixpoint filter_from (f : A -> Z -> bool) (l : list A) (i : Z) : list A :=
  match l with
  | [] => []
  | x :: t =>
      if f x i then x :: filter_from f t (i + 1)
      else filter_from f t (i + 1)
  end.

Definition filter_index (f : A -> Z -> bool) (l : list A) : list A :=
  filter_from f l 0.

(** [Array.prototype.slice(start, end)]: negative arguments count from
    the end of the array, both are clamped to the array. *)
Definition slice (l : list A) (start stop : Z) : list A :=
  let len := Z.of_nat (length l) in
  let k := if start <? 0 then Z.max (len + start) 0 else Z.min start len in
  let final := if stop <? 0 then Z.max (len + stop) 0 else Z.min stop len in
  firstn (Z.to_nat (final - k)) (skipn (Z.to_nat k) l).

(** [.filter(x => x !== null)] on the result of a [map]. *)
Fixpoint filter_not_null (l : list (option A)) : list A :=
  match l with
  | [] => []
  | None :: t => filter_not_null t
  | Some x :: t => x :: filter_not_null t
  end.

End ArrayOps.

(** [parseInt(req.query.x) || d]: [None] is NaN; NaN and 0 are falsy. *)
Definition parse_or (q : option Z) (d : Z) : Z :=
  match q with
  | Some n => if n =? 0 then d else n
  | None => d
  end.

(** ** Mongoose queries *)

Module Query.
Section Ops.

Context {A : Type}.

(** [.sort(spec)]: [before a b] holds when [a] may come before [b];
    documents with equal keys stay in collection order (the server leaves
    their order open). *)
Fixpoint insert_sorted (before : A -> A -> bool) (x : A) (l : list A) : list A :=
  match l with
  | [] => [x]
  | y :: t => if before x y then x :: l else y :: insert_sorted before x t
  end.

Fixpoint sort (before : A -> A -> bool) (l : list A) : list A :=
  match l with
  | [] => []
  | x :: t => insert_sorted before x (sort before t)
  end.

(** [.skip(n)]: the server rejects a negative skip. *)
Definition skip (n : Z) (l : list A) : option (list A) :=
  if n <? 0 then None else Some (skipn (Z.to_nat n) l).

(** [.limit(n)]: 0 means no limit, a negative limit is its absolute
    value. *)
Definition limit (n : Z) (l : list A) : list A :=
  if n =? 0 then l else firstn (Z.to_nat (Z.abs n)) l.

End Ops.
End Query.

(** Sort specifications of the feeds. *)

(** [{ createdAt: -1 }] *)
Definition createdAt_desc (a b : Post.t) : bool :=
  Post.createdAt b <=? Post.createdAt a.

(** [{ isPinned: -1, createdAt: -1 }] *)
Definition isPinned_createdAt_desc (a b : Post.t) : bool :=
  if Bool.eqb (Post.isPinned a) (Post.isPinned b)
  then Post.createdAt b <=? Post.createdAt a
  else Post.isPinned a.

(** [{ $add: [{ $size: '$likes' }, { $size: '$comments' }] }] *)
Definition interactions (p : Post.t) : Z :=
  Z.of_nat (length (Post.likes p)) + Z.of_nat (length (Post.comments p)).

(** [n * 24 * 60 * 60 * 1000] *)
Definition days (n : Z) : Z := n * 24 * 60 * 60 * 1000.

(** ** The database and the responses *)

Record DB := mkDB {
  db_posts : list Post.t;
  db_users : list User.t
}.

(** The plain object made from a post document, with its virtuals; the
    field [isLikedByUser] is absent ([None]) until the router sets it. *)
Record PostObj := mkPostObj {
  doc : Post.t;
  likesCount : nat;
  commentsCount : nat;
  isLikedByUser : option bool
}.

Definition set_isLikedByUser (o : PostObj) (b : bool) : PostObj :=
  mkPostObj (doc o) (likesCount o) (commentsCount o) (Some b).

Record Pagination := mkPagination {
  page : Z;
  limit : Z;
  hasNext : bool
}.

(** The JSON body of a feed; the [meta] object is left out. *)
Record FeedBody := mkFeedBody {
  posts : list PostObj;
  pagination : Pagination
}.

Inductive Response :=
| Json (body : FeedBody)
| Status404
| Status500.

(** ** The feed routes *)

Section Router.

(** Whether [post.toObject()] throws on a document: Mongoose's own code,
    left abstract. *)
Variable throws : Post.t -> bool.

(** [array.sort(() => Math.random() - 0.5)]: the order produced by the
    engine under a random comparator, left abstract. *)
Variable random_sort : list Post.t -> list Post.t.

Definition toObject (post : Post.t) : option PostObj :=
  if throws post then None
  else Some (mkPostObj post (Post.likesCount post) (Post.commentsCount post) None).

(** The callback of [posts.map] in /feed/following and /feed/for-you:
    null for a null entry and for a document whose conversion throws. *)
Definition withUserData (userId : ObjectId) (post : option Post.t) : option PostObj :=
  match post with
  | None => None
  | Some post =>
      match toObject post with
      | Some postObj =>
          Some (set_isLikedByUser postObj (Post.isLikedBy post (Some userId)))
      | None => None
      end
  end.

(** The callback of [posts.map] in /discover: the flag is set only when
    [req.user] is. *)
Definition withOptionalUserData (req_user : option ObjectId) (post : option Post.t)
  : option PostObj :=
  match post with
  | None => None
  | Some post =>
      match toObject post with
      | Some postObj =>
          match req_user with
          | Some userId =>
              Some (set_isLikedByUser postObj (Post.isLikedBy post (Some userId)))
          | None => Some postObj
          end
      | None => None
      end
  end.

(** *** GET /feed/following *)

(** The query of the route: [None] when the server rejects it. *)
Definition following_query (db : DB) (user : User.t) (page limit : Z)
  : option (list Post.t) :=
  let followingIds :=
    if (0 <? length (User.following user))%nat then User.following user else [] in
  if (length followingIds =? 0)%nat then
    option_map (Query.limit limit)
      (Query.skip ((page - 1) * limit)
         (Query.sort isPinned_createdAt_desc
            (filter (fun p =>
                       equals (Post.author p) (User._id user)
                       && Post.isActive p)
               (db_posts db))))
  else
    option_map (Query.limit limit)
      (Query.skip ((page - 1) * limit)
         (Query.sort isPinned_createdAt_desc
            (filter (fun p =>
                       (equals (Post.author p) (User._id user)
                        || mem (Post.author p) followingIds)
                       && Post.isActive p)
               (db_posts db)))).

Definition feed_following (db : DB) (userId : ObjectId) (query_page query_limit : option Z)
  : Response :=
  let page := parse_or query_page 1 in
  let limit := parse_or query_limit 10 in
  match User.findById (db_users db) userId with
  | None => Status404
  | Some user =>
      match following_query db user page limit with
      | None => Status500
      | Some posts =>
          let postsWithUserData :=
            filter_not_null (map (withUserData (User._id user)) (map Some posts)) in
          Json {| posts := postsWithUserData;
                  pagination := {| page := page;
                                   limit := limit;
                                   hasNext := Z.of_nat (length posts) =? limit |} |}
      end
  end.

(** *** GET /feed/for-you *)

(** [Math.floor(limit * 0.4)] and [Math.floor(limit * 0.3)]: on an
    integer [limit] the double product rounds to the same integer part
    as the exact one. *)
Definition floor_40_percent (limit : Z) : Z := (2 * limit) / 5.
Definition floor_30_percent (limit : Z) : Z := (3 * limit) / 10.

(** 1. recent popular posts, last 14 days, one interaction or more. *)
Definition recentPopular (db : DB) (now : Z) (excludeIds : list ObjectId) (limit : Z)
  : list Post.t :=
  Query.limit (floor_40_percent limit)
    (Query.sort createdAt_desc
       (filter (fun p =>
                  negb (mem (Post.author p) excludeIds)
                  && Post.isActive p
                  && (now - days 14 <=? Post.createdAt p)
                  && (1 <=? interactions p))
          (db_posts db))).

(** [User.find({ userType: 'artist', isVerified: true,
    _id: { $nin: excludeIds } }).distinct('_id')] *)
Definition verifiedArtistIds (db : DB) (excludeIds : list ObjectId) : list ObjectId :=
  nodup N.eq_dec
    (map User._id
       (filter (fun u =>
                  UserType_eqb (User.userType u) artist
                  && User.isVerified u
                  && negb (mem (User._id u) excludeIds))
          (db_users db))).

(** 2. posts of verified artists, last 21 days. *)
Definition verifiedArtistsPosts (db : DB) (now : Z) (excludeIds : list ObjectId) (limit : Z)
  : list Post.t :=
  Query.limit (floor_30_percent limit)
    (Query.sort createdAt_desc
       (filter (fun p =>
                  negb (mem (Post.author p) excludeIds)
                  && mem (Post.author p) (verifiedArtistIds db excludeIds)
                  && Post.isActive p
                  && (now - days 21 <=? Post.createdAt p))
          (db_posts db))).

(** 3. recent posts of anyone else, last 7 days. *)
Definition recentDiverse (db : DB) (now : Z) (excludeIds : list ObjectId) (n : Z)
  : list Post.t :=
  Query.limit n
    (Query.sort createdAt_desc
       (filter (fun p =>
                  negb (mem (Post.author p) excludeIds)
                  && Post.isActive p
                  && (now - days 7 <=? Post.createdAt p))
          (db_posts db))).

(** The candidates pushed into [algorithmPosts], in order. *)
Definition algorithmPosts (db : DB) (now : Z) (excludeIds : list ObjectId) (limit : Z)
  : list Post.t :=
  let a1 := recentPopular db now excludeIds limit in
  let a2 :=
    if Z.of_nat (length a1) <? limit
    then a1 ++ verifiedArtistsPosts db now excludeIds limit
    else a1 in
  if Z.of_nat (length a2) <? limit
  then a2 ++ recentDiverse db now excludeIds (limit - Z.of_nat (length a2))
  else a2.

(** Duplicate removal: keep the entries whose index is the index of the
    first entry with the same identifier string. *)
Definition uniquePosts (self : list Post.t) : list Post.t :=
  filter_index
    (fun post index =>
       index =? findIndex (fun p => String.eqb (toString (Post._id p))
                                               (toString (Post._id post))) self)
    self.

Definition shuffledPosts (unique : list Post.t) (page limit : Z) : list Post.t :=
  slice (random_sort unique) ((page - 1) * limit) (page * limit).

Definition feed_for_you (db : DB) (now : Z) (userId : ObjectId)
  (query_page query_limit : option Z) : Response :=
  let page := parse_or query_page 1 in
  let limit := parse_or query_limit 10 in
  match User.findById (db_users db) userId with
  | None => Status404
  | Some user =>
      let excludeIds := User._id user :: User.following user in
      let unique := uniquePosts (algorithmPosts db now excludeIds limit) in
      let shuffled := shuffledPosts unique page limit in
      let postsWithUserData :=
        filter_not_null (map (withUserData (User._id user)) (map Some shuffled)) in
      Json {| posts := postsWithUserData;
              pagination := {| page := page;
                               limit := limit;
                               hasNext := Z.of_nat (length shuffled) =? limit |} |}
  end.

(** *** GET /discover *)

Definition discover_filter (now : Z) (p : Post.t) : bool :=
  Post.isActive p
  && ((1 <=? interactions p) || (now - days 7 <=? Post.createdAt p)).

Definition discover_query (db : DB) (now : Z) (page limit : Z) : option (list Post.t) :=
  let skip := (page - 1) * limit in
  option_map (Query.limit limit)
    (Query.skip skip
       (Query.sort createdAt_desc (filter (discover_filter now) (db_posts db)))).

(** [req_user] is the identity put on the request by the optional
    authentication, if any. *)
Definition discover (db : DB) (now : Z) (req_user : option ObjectId)
  (query_page query_limit : option Z) : Response :=
  let page := parse_or query_page 1 in
  let limit := parse_or query_limit 10 in
  match discover_query db now page limit with
  | None => Status500
  | Some posts =>
      let postsWithUserData :=
        filter_not_null (map (withOptionalUserData req_user) (map Some posts)) in
      Json {| posts := postsWithUserData;
              pagination := {| page := page;
                               limit := limit;
                               hasNext := Z.of_nat (length posts) =? limit |} |}
  end.

End Router.

(** ** The contracts of the specification, for comparison with the code *)

(** Pagination window: [limit] elements from offset [(page - 1) * limit]. *)
Definition window {A : Type} (l : list A) (page limit : Z) : list A :=
  firstn (Z.to_nat limit) (skipn (Z.to_nat ((page - 1) * limit)) l).

(** Deduplication keeping the first post seen for each identity. *)
Fixpoint dedup_first (seen : list ObjectId) (l : list Post.t) : list Post.t :=
  match l with
  | [] => []
  | p :: t =>
      if mem (Post._id p) seen then dedup_first seen t
      else p :: dedup_first (Post._id p :: seen) t
  end.

(** Pinned posts first, then newest first. *)
Definition pinned_first_newest_first (a b : Post.t) : Prop :=
  (Post.isPinned a = true /\ Post.isPinned b = false)
  \/ (Post.isPinned a = Post.isPinned b /\ Post.createdAt b <= Post.createdAt a).

(** What every candidate of the for-you feed satisfies. *)
Definition for_you_candidate (db : DB) (excludeIds : list ObjectId) (p : Post.t) : Prop :=
  In p (db_posts db) /\ Post.isActive p = true /\ ~ In (Post.author p) excludeIds.

(** A post written neither by the viewer nor by someone the viewer follows. *)
Definition from_outside (viewer : User.t) (p : Post.t) : Prop :=
  Post.author p <> User._id viewer /\ ~ In (Post.author p) (User.following viewer).

(** The candidate pool of the following feed: the active posts of the
    viewer and of the users the viewer follows, pinned first, then newest
    first. *)
Definition following_candidates (db : DB) (viewer : User.t) : list Post.t :=
  Query.sort isPinned_createdAt_desc
    (filter (fun p =>
               (equals (Post.author p) (User._id viewer)
                || mem (Post.author p) (User.following viewer))
               && Post.isActive p)
       (db_posts db)).

(** The candidate pool of the discover feed, newest first. *)
Definition discover_candidates (db : DB) (now : Z) : list Post.t :=
  Query.sort createdAt_desc (filter (discover_filter now) (db_posts db)).

(** A list obtained from another by dropping entries, order kept. *)
Inductive subseq {A : Type} : list A -> list A -> Prop :=
| subseq_nil : subseq [] []
| subseq_skip : forall x l1 l2, subseq l1 l2 -> subseq l1 (x :: l2)
| subseq_keep : forall x l1 l2, subseq l1 l2 -> subseq (x :: l1) (x :: l2).

(** ** Sample data *)

Module Sample.

Definition viewer : User.t := User.mk 1%N fan [2%N] false true.
Definition userA : User.t := User.mk 2%N artist [] true true.
Definition userB : User.t := User.mk 3%N artist [] true true.
Definition loner : User.t := User.mk 4%N fan [] false true.

Definition now : Z := days 100.

Definition mkpost (id author : N) (likes : list ObjectId) (active pinned : bool) (age : Z)
  : Post.t :=
  Post.mk id author "post"%string likes [] active pinned (now - days age).

Definition P1 := mkpost 11 1 [] true false 3.
Definition P2 := mkpost 12 2 [1%N] true true 5.
Definition P3 := mkpost 13 3 [] true false 10.
Definition P4 := mkpost 14 3 [1%N] true false 2.
Definition P5 := mkpost 15 3 [] false false 1.
Definition P6 := mkpost 16 4 [] true false 1.

Definition db : DB := mkDB [P1; P2; P3; P4; P5; P6] [viewer; userA; userB; loner].

(** A database of [n] active posts of one author who follows nobody. *)
Definition own_posts (n : nat) : list Post.t :=
  map (fun i => mkpost (N.of_nat i) 4 [] true false 1) (seq 0 n).

Definition never_throws (p : Post.t) : bool := false.

(** A conversion that fails on pinned posts. *)
Definition throws_on_pinned (p : Post.t) : bool := Post.isPinned p.

Definition reversing (l : list Post.t) : list Post.t := rev l.

End Sample.

(** ** The rest of the Post model and of the posts router *)

Definition set_comments (this : Post.t) (l : list Comment) : Post.t :=
  Post.mk (Post._id this) (Post.author this) (Post.content this) (Post.likes this) l
    (Post.isActive this) (Post.isPinned this) (Post.createdAt this).

Definition set_content (this : Post.t) (c : string) : Post.t :=
  Post.mk (Post._id this) (Post.author this) c (Post.likes this) (Post.comments this)
    (Post.isActive this) (Post.isPinned this) (Post.createdAt this).

(** [postSchema.methods.addComment]: push [{ user, text }]. *)
Definition addComment (this : Post.t) (userId : ObjectId) (text : string) : Post.t :=
  set_comments this (Post.comments this ++ [mkComment userId text]).

(** A parameter with a default value: [None] is an omitted argument. *)
Definition default_to {A : Type} (o : option A) (d : A) : A :=
  match o with
  | Some x => x
  | None => d
  end.

(** [postSchema.statics.getFeedPosts(userId, followingIds = [], page = 1,
    limit = 10)]; a [followingIds] that is not an array counts as empty. *)
Definition getFeedPosts (coll : list Post.t) (userId : ObjectId)
  (followingIds : option (list ObjectId)) (page limit : option Z)
  : option (list Post.t) :=
  let page := default_to page 1 in
  let limit := default_to limit 10 in
  let skip := (page - 1) * limit in
  let validFollowingIds := default_to followingIds [] in
  let filter_ :=
    if (0 <? length validFollowingIds)%nat
    then fun p => Post.isActive p
                  && (equals (Post.author p) userId
                      || mem (Post.author p) validFollowingIds)
    else fun p => Post.isActive p && equals (Post.author p) userId in
  option_map (Query.limit limit)
    (Query.skip skip (Query.sort isPinned_createdAt_desc (filter filter_ coll))).

(** [postSchema.statics.getPopularPosts(excludeUserId = null, page = 1,
    limit = 10)]: active posts with two interactions or more. *)
Definition getPopularPosts (coll : list Post.t) (excludeUserId : option ObjectId)
  (page limit : option Z) : option (list Post.t) :=
  let page := default_to page 1 in
  let limit := default_to limit 10 in
  let skip := (page - 1) * limit in
  let filter_ :=
    match excludeUserId with
    | Some e => fun p => Post.isActive p && (2 <=? interactions p)
                         && negb (equals (Post.author p) e)
    | None => fun p => Post.isActive p && (2 <=? interactions p)
    end in
  option_map (Query.limit limit)
    (Query.skip skip (Query.sort createdAt_desc (filter filter_ coll))).

(** [Post.findById(id)]: the document or null. *)
Definition Post_findById (coll : list Post.t) (id : ObjectId) : option Post.t :=
  find (fun p => equals (Post._id p) id) coll.

(** [doc.save()] of a loaded document: the stored document with its [_id]
    is replaced. *)
Fixpoint save (doc : Post.t) (coll : list Post.t) : list Post.t :=
  match coll with
  | [] => []
  | q :: t =>
      if equals (Post._id q) (Post._id doc) then doc :: t else q :: save doc t
  end.

(** [Post.findByIdAndDelete(id)] *)
Fixpoint findByIdAndDelete (id : ObjectId) (coll : list Post.t) : list Post.t :=
  match coll with
  | [] => []
  | q :: t => if equals (Post._id q) id then t else q :: findByIdAndDelete id t
  end.

(** *** POST /:id/like

    [params_id] is [req.params.id] once [isMongoId] has accepted it, [None]
    when the validation has errors; [userId] is [req.user.userId]. *)

Inductive LikeResponse :=
| LikeJson (isLiked : bool) (likesCount : nat)
| LikeStatus400
| LikeStatus404.

Definition like_route (db : DB) (userId : ObjectId) (params_id : option ObjectId)
  : DB * LikeResponse :=
  match params_id with
  | None => (db, LikeStatus400)
  | Some id =>
      match Post_findById (db_posts db) id with
      | None => (db, LikeStatus404)
      | Some post =>
          if negb (Post.isActive post) then (db, LikeStatus404)
          else
            let isLiked := Post.isLikedBy post (Some userId) in
            let post' :=
              if isLiked then Post.unlike post userId else Post.like post userId in
            (mkDB (save post' (db_posts db)) (db_users db),
             LikeJson (negb isLiked) (Post.likesCount post'))
      end
  end.

(** The document that a successful like toggle saves. *)
Definition toggled (post : Post.t) (userId : ObjectId) : Post.t :=
  if Post.isLikedBy post (Some userId)
  then Post.unlike post userId else Post.like post userId.

(** *** POST /:id/comment

    [req] is the validated pair of [req.params.id] and the trimmed
    [req.body.text], [None] when the validation has errors.  The comment
    of the answer carries the reference to its user, which [populate]
    expands in the JSON. *)

Inductive CommentResponse :=
| CommentStatus201 (comment : option Comment) (commentsCount : nat)
| CommentStatus400
| CommentStatus404.

Definition comment_route (db : DB) (userId : ObjectId) (req : option (ObjectId * string))
  : DB * CommentResponse :=
  match req with
  | None => (db, CommentStatus400)
  | Some (id, text) =>
      match Post_findById (db_posts db) id with
      | None => (db, CommentStatus404)
      | Some post =>
          if negb (Post.isActive post) then (db, CommentStatus404)
          else
            let post' := addComment post userId text in
            let newComment :=
              nth_error (Post.comments post') (length (Post.comments post') - 1) in
            (mkDB (save post' (db_posts db)) (db_users db),
             CommentStatus201 newComment (Post.commentsCount post'))
      end
  end.

(** *** GET /:id *)

(** The post object of the answer, with [canEdit] absent ([None]) until
    the router sets it. *)
Record PostView := mkPostView {
  view : PostObj;
  canEdit : option bool
}.

Inductive GetResponse :=
| GetJson (post : PostView)
| GetStatus400
| GetStatus404
| GetStatus500.

(** [populate('author', ...)] puts the author's document, or null when
    there is none, in [post.author]; reading [post.author._id] on null
    throws, which the route answers with 500. *)
Definition get_route (throws : Post.t -> bool) (db : DB) (req_user : option ObjectId)
  (params_id : option ObjectId) : GetResponse :=
  match params_id with
  | None => GetStatus400
  | Some id =>
      match Post_findById (db_posts db) id with
      | None => GetStatus404
      | Some post =>
          if negb (Post.isActive post) then GetStatus404
          else
            match toObject throws post with
            | None => GetStatus500
            | Some postObj =>
                match req_user with
                | None => GetJson (mkPostView postObj None)
                | Some userId =>
                    match User.findById (db_users db) (Post.author post) with
                    | None => GetStatus500
                    | Some author =>
                        GetJson
                          (mkPostView
                             (set_isLikedByUser postObj
                                (Post.isLikedBy post (Some userId)))
                             (Some (equals (User._id author) userId)))
                    end
                end
            end
      end
  end.

(** *** PUT /:id

    [req] is the validated pair of [req.params.id] and the trimmed
    [req.body.content], [None] when the validation has errors.  The
    document is saved before it is converted for the answer. *)

Inductive UpdateResponse :=
| UpdateJson (post : PostObj)
| UpdateStatus400
| UpdateStatus403
| UpdateStatus404
| UpdateStatus500.

Definition update_route (throws : Post.t -> bool) (db : DB) (userId : ObjectId)
  (req : option (ObjectId * string)) : DB * UpdateResponse :=
  match req with
  | None => (db, UpdateStatus400)
  | Some (id, content) =>
      match Post_findById (db_posts db) id with
      | None => (db, UpdateStatus404)
      | Some post =>
          if negb (Post.isActive post) then (db, UpdateStatus404)
          else if negb (equals (Post.author post) userId) then (db, UpdateStatus403)
          else
            let post' := set_content post content in
            let db' := mkDB (save post' (db_posts db)) (db_users db) in
            match toObject throws post' with
            | Some postObj => (db', UpdateJson postObj)
            | None => (db', UpdateStatus500)
            end
      end
  end.

(** *** DELETE /:id

    The users of the model carry no post counter, so its decrement leaves
    them as they are. *)

Inductive DeleteResponse :=
| DeleteJson
| DeleteStatus400
| DeleteStatus403
| DeleteStatus404.

Definition delete_route (db : DB) (userId : ObjectId) (params_id : option ObjectId)
  : DB * DeleteResponse :=
  match params_id with
  | None => (db, DeleteStatus400)
  | Some id =>
      match Post_findById (db_posts db) id with
      | None => (db, DeleteStatus404)
      | Some post =>
          if negb (equals (Post.author post) userId) then (db, DeleteStatus403)
          else (mkDB (findByIdAndDelete id (db_posts db)) (db_users db), DeleteJson)
      end
  end.

(** A page computed for a viewer by one of the three feeds. *)
Definition page_for (throws : Post.t -> bool) (random_sort : list Post.t -> list Post.t)
  (db : DB) (now : Z) (userId : ObjectId) (query_page query_limit : option Z)
  (body : FeedBody) : Prop :=
  feed_following throws db userId query_page query_limit = Json body
  \/ feed_for_you throws random_sort db now userId query_page query_limit = Json body
  \/ discover throws db now (Some userId) query_page query_limit = Json body.

(** ** The follow graph of the User model

    A stored user: the fields of [User.t] and the [followers] array.
    User ids given to the methods are ObjectIds (or their canonical
    strings, which compare alike). *)

Module Account.

Record t := mk {
  user : User.t;
  followers : list ObjectId
}.

Definition _id (a : t) : ObjectId := User._id (user a).
Definition following (a : t) : list ObjectId := User.following (user a).

Definition set_following (a : t) (l : list ObjectId) : t :=
  mk (User.mk (User._id (user a)) (User.userType (user a)) l
        (User.isVerified (user a)) (User.isActive (user a)))
     (followers a).

Definition set_followers (a : t) (l : list ObjectId) : t := mk (user a) l.

End Account.

(** [doc.save()] of a loaded user. *)
Fixpoint save_account (doc : Account.t) (coll : list Account.t) : list Account.t :=
  match coll with
  | [] => []
  | a :: t =>
      if equals (Account._id a) (Account._id doc) then doc :: t
      else a :: save_account doc t
  end.

(** [User.findByIdAndUpdate(id, update)]: nothing happens when no user has
    the id. *)
Fixpoint findByIdAndUpdate (id : ObjectId) (update : Account.t -> Account.t)
  (coll : list Account.t) : list Account.t :=
  match coll with
  | [] => []
  | a :: t =>
      if equals (Account._id a) id then update a :: t
      else a :: findByIdAndUpdate id update t
  end.

(** [$addToSet] and [$pull] (also [MongooseArray.pull]) on an array of ids. *)
Definition addToSet (x : ObjectId) (l : list ObjectId) : list ObjectId :=
  if mem x l then l else l ++ [x].

Definition pull (x : ObjectId) (l : list ObjectId) : list ObjectId :=
  filter (fun y => negb (equals y x)) l.

(** [userSchema.methods.isFollowing] *)
Definition isFollowing (this : Account.t) (userId : ObjectId) : bool :=
  mem userId (Account.following this).

(** [userSchema.methods.follow]: the users after the call. *)
Definition follow (coll : list Account.t) (this : Account.t) (userId : ObjectId)
  : list Account.t :=
  if negb (mem userId (Account.following this)) then
    let this' := Account.set_following this (Account.following this ++ [userId]) in
    findByIdAndUpdate userId
      (fun a => Account.set_followers a (addToSet (Account._id this) (Account.followers a)))
      (save_account this' coll)
  else coll.

(** [userSchema.methods.unfollow]: the users after the call. *)
Definition unfollow (coll : list Account.t) (this : Account.t) (userId : ObjectId)
  : list Account.t :=
  let this' := Account.set_following this (pull userId (Account.following this)) in
  findByIdAndUpdate userId
    (fun a => Account.set_followers a (pull (Account._id this) (Account.followers a)))
    (save_account this' coll).

Definition Account_findById (coll : list Account.t) (id : ObjectId) : option Account.t :=
  find (fun a => equals (Account._id a) id) coll.

(** The database that the feeds read. *)
Definition db_of (posts : list Post.t) (coll : list Account.t) : DB :=
  mkDB posts (map Account.user coll).

(** ** The per-user rate limit of the audit middleware *)

Definition WINDOW_SIZE : Z := 15 * 60 * 1000.
Definition MAX_REQUESTS : nat := 200.

(** The [Map] from user ids to the times of their requests. *)
Definition UserRequests := ObjectId -> option (list Z).

Definition Map_empty : UserRequests := fun _ => None.

Definition Map_set (m : UserRequests) (key : ObjectId) (value : list Z) : UserRequests :=
  fun k => if equals key k then Some value else m k.

Inductive Verdict :=
| Next
| Status429.

(** The middleware returned by [userRateLimitMiddleware()], on the id of
    [req.user] if any and on [Date.now()]: the map after the request and
    whether the request goes on. *)
Definition userRateLimit (userRequests : UserRequests) (req_user : option ObjectId)
  (now : Z) : UserRequests * Verdict :=
  match req_user with
  | None => (userRequests, Next)
  | Some userId =>
      let windowStart := now - WINDOW_SIZE in
      let userRequests1 :=
        match userRequests userId with
        | Some times =>
            Map_set userRequests userId (filter (fun time => windowStart <? time) times)
        | None => Map_set userRequests userId []
        end in
      let currentUserRequests := default_to (userRequests1 userId) [] in
      if (MAX_REQUESTS <=? length currentUserRequests)%nat
      then (userRequests1, Status429)
      else (Map_set userRequests1 userId (currentUserRequests ++ [now]), Next)
  end.

(** The map after a sequence of requests, each with its user and time. *)
Fixpoint after (userRequests : UserRequests) (reqs : list (option ObjectId * Z))
  : UserRequests :=
  match reqs with
  | [] => userRequests
  | (req_user, now) :: rest => after (fst (userRateLimit userRequests req_user now)) rest
  end.

(** The times of the requests of a user that went on. *)
Fixpoint passed (userId : ObjectId) (userRequests : UserRequests)
  (reqs : list (option ObjectId * Z)) : list Z :=
  match reqs with
  | [] => []
  | (req_user, now) :: rest =>
      let (m, verdict) := userRateLimit userRequests req_user now in
      match req_user, verdict with
      | Some u, Next =>
          if equals u userId then now :: passed userId m rest else passed userId m rest
      | _, _ => passed userId m rest
      end
  end.

(** Requests in the order of their times. *)
Definition chronological (reqs : list (option ObjectId * Z)) : Prop :=
  StronglySorted Z.le (map snd reqs).

(** Between a request that went on and the [MAX_REQUESTS]-th one that
    went on after it, a whole window has passed. *)
Definition spaced (hist : list Z) : Prop :=
  forall (i : nat) (t t' : Z),
    nth_error hist i = Some t ->
    nth_error hist (i + MAX_REQUESTS) = Some t' ->
    t + WINDOW_SIZE <= t'.

(** Sample users with their followers: the viewer follows user A. *)
Module SampleGraph.

Definition viewer : Account.t := Account.mk Sample.viewer [].
Definition userA : Account.t := Account.mk Sample.userA [1%N].
Definition userB : Account.t := Account.mk Sample.userB [].
Definition loner : Account.t := Account.mk Sample.loner [].

Definition accounts : list Account.t := [viewer; userA; userB; loner].

End SampleGraph.

(** Sample requests: a short sequence, and 200 requests of one user in
    200 milliseconds followed by one 15 minutes after the first. *)
Module SampleRequests.

Definition few : list (option ObjectId * Z) := [(Some 1%N, 10); (None, 20)].

Definition burst : list (option ObjectId * Z) :=
  map (fun k => (Some 1%N, Z.of_nat k)) (seq 0 200) ++ [(Some 1%N, 900000)].

End SampleRequests.

(** * Properties *)

(** ** Identifiers *)

Lemma equals_true (a b : ObjectId) : equals a b = true <-> a = b.
Proof. unfold equals. apply N.eqb_eq. Qed.

Lemma equals_false (a b : ObjectId) : equals a b = false <-> a <> b.
Proof. unfold equals. apply N.eqb_neq. Qed.

Lemma mem_In (x : ObjectId) (l : list ObjectId) : mem x l = true <-> In x l.
Proof.
  unfold mem. rewrite existsb_exists. split.
  - intros [y [Hy Heq]]. apply equals_true in Heq. now subst.
  - intros H. exists x. split; [assumption | now apply equals_true].
Qed.

Lemma mem_not_In (x : ObjectId) (l : list ObjectId) : mem x l = false <-> ~ In x l.
Proof.
  rewrite <- mem_In. destruct (mem x l); split; intros; congruence.
Qed.

Lemma toString_inj (a b : ObjectId) : toString a = toString b -> a = b.
Proof.
  unfold toString. intros H.
  rewrite <- (HexString.to_N_of_N a), <- (HexString.to_N_of_N b).
  now rewrite H.
Qed.

Lemma toString_eqb (a b : ObjectId) :
  String.eqb (toString a) (toString b) = equals a b.
Proof.
  destruct (equals a b) eqn:E.
  - apply equals_true in E. subst. apply String.eqb_refl.
  - apply String.eqb_neq. intros H. apply toString_inj in H.
    apply equals_false in E. contradiction.
Qed.

Lemma findById_some (users : list User.t) (id : ObjectId) (u : User.t) :
  User.findById users id = Some u -> In u users /\ User._id u = id.
Proof.
  unfold User.findById. intros H. apply find_some in H.
  destruct H as [Hin Heq]. apply equals_true in Heq. now split.
Qed.

(** ** Subsequences *)

Lemma subseq_refl {A : Type} (l : list A) : subseq l l.
Proof. induction l; constructor; assumption. Qed.

Lemma subseq_nil_l {A : Type} (l : list A) : subseq [] l.
Proof. induction l; constructor; assumption. Qed.

Lemma subseq_In {A : Type} (l1 l2 : list A) :
  subseq l1 l2 -> forall x, In x l1 -> In x l2.
Proof.
  induction 1; intros y Hy; simpl in *.
  - assumption.
  - right. auto.
  - destruct Hy as [-> | Hy]; [now left | right; auto].
Qed.

Lemma subseq_length {A : Type} (l1 l2 : list A) :
  subseq l1 l2 -> (length l1 <= length l2)%nat.
Proof. induction 1; simpl; lia. Qed.

Lemma subseq_trans {A : Type} (l1 l2 l3 : list A) :
  subseq l1 l2 -> subseq l2 l3 -> subseq l1 l3.
Proof.
  intros H12 H23. revert l1 H12.
  induction H23; intros l0 H12.
  - assumption.
  - constructor. auto.
  - inversion H12; subst.
    + constructor. auto.
    + apply subseq_keep. auto.
Qed.

Lemma subseq_filter {A : Type} (f : A -> bool) (l : list A) :
  subseq (filter f l) l.
Proof.
  induction l as [| x l IH]; simpl.
  - constructor.
  - destruct (f x); constructor; assumption.
Qed.

Lemma subseq_firstn {A : Type} (n : nat) (l : list A) : subseq (firstn n l) l.
Proof.
  revert l. induction n as [| n IH]; intros [| x l]; simpl.
  - constructor.
  - apply subseq_nil_l.
  - constructor.
  - apply subseq_keep, IH.
Qed.

Lemma subseq_skipn {A : Type} (n : nat) (l : list A) : subseq (skipn n l) l.
Proof.
  revert l. induction n as [| n IH]; intros [| x l]; simpl.
  - constructor.
  - apply subseq_refl.
  - constructor.
  - apply subseq_skip, IH.
Qed.

Lemma subseq_StronglySorted {A : Type} (R : A -> A -> Prop) (l1 l2 : list A) :
  subseq l1 l2 -> StronglySorted R l2 -> StronglySorted R l1.
Proof.
  induction 1; intros Hs.
  - constructor.
  - apply StronglySorted_inv in Hs. tauto.
  - apply StronglySorted_inv in Hs. destruct Hs as [Hs Hall].
    constructor; [auto |].
    rewrite Forall_forall in *. intros y Hy. apply Hall.
    eapply subseq_In; eassumption.
Qed.

(** ** Query operators *)

Lemma limit_subseq {A : Type} (n : Z) (l : list A) : subseq (Query.limit n l) l.
Proof.
  unfold Query.limit. destruct (n =? 0); [apply subseq_refl | apply subseq_firstn].
Qed.

Lemma skip_subseq {A : Type} (n : Z) (l l' : list A) :
  Query.skip n l = Some l' -> subseq l' l.
Proof.
  unfold Query.skip. destruct (n <? 0); [discriminate |].
  intros H. injection H as <-. apply subseq_skipn.
Qed.

Lemma limit_positive {A : Type} (n : Z) (l : list A) :
  0 < n -> Query.limit n l = firstn (Z.to_nat n) l.
Proof.
  intros Hn. unfold Query.limit.
  destruct (n =? 0) eqn:E; [apply Z.eqb_eq in E; lia |].
  now rewrite Z.abs_eq by lia.
Qed.

Lemma skip_nonneg {A : Type} (n : Z) (l : list A) :
  0 <= n -> Query.skip n l = Some (skipn (Z.to_nat n) l).
Proof.
  intros Hn. unfold Query.skip.
  destruct (n <? 0) eqn:E; [apply Z.ltb_lt in E; lia | reflexivity].
Qed.

Lemma subseq_slice {A : Type} (l : list A) (start stop : Z) :
  subseq (slice l start stop) l.
Proof.
  unfold slice. eapply subseq_trans; [apply subseq_firstn | apply subseq_skipn].
Qed.

Lemma slice_window {A : Type} (l : list A) (page limit : Z) :
  1 <= page -> 0 < limit ->
  slice l ((page - 1) * limit) (page * limit) = window l page limit.
Proof.
  intros Hp Hl. unfold slice, window.
  remember (Z.of_nat (length l)) as len eqn:Hlen.
  assert (Hse : page * limit = (page - 1) * limit + limit) by lia.
  assert (Hs : 0 <= (page - 1) * limit) by nia.
  rewrite Hse. clear Hse.
  remember ((page - 1) * limit) as s eqn:Es. clear Es.
  destruct (s <? 0) eqn:E1; [apply Z.ltb_lt in E1; lia |].
  destruct (s + limit <? 0) eqn:E2; [apply Z.ltb_lt in E2; lia |].
  remember (s + limit) as e eqn:Ee.
  destruct (Z.le_gt_cases len s) as [Hout | Hin].
  - rewrite (skipn_all2 (n := Z.to_nat (Z.min s len))) by lia.
    rewrite (skipn_all2 (n := Z.to_nat s)) by lia.
    now rewrite !firstn_nil.
  - rewrite (Z.min_l s len) by lia.
    destruct (Z.le_gt_cases e len) as [Hfull | Hshort].
    + rewrite Z.min_l by lia. f_equal. lia.
    + rewrite Z.min_r by lia.
      rewrite !firstn_all2; [reflexivity | |]; rewrite length_skipn; lia.
Qed.

(** ** Sorting *)

Section SortFacts.

Context {A : Type}.
Variable before : A -> A -> bool.

Lemma insert_sorted_perm (x : A) (l : list A) :
  Permutation (x :: l) (Query.insert_sorted before x l).
Proof.
  induction l as [| y t IH]; simpl.
  - apply Permutation_refl.
  - destruct (before x y).
    + apply Permutation_refl.
    + eapply perm_trans; [apply perm_swap |]. now apply perm_skip.
Qed.

Lemma sort_perm (l : list A) : Permutation l (Query.sort before l).
Proof.
  induction l as [| x t IH]; simpl.
  - constructor.
  - eapply perm_trans; [| apply insert_sorted_perm]. now apply perm_skip.
Qed.

Lemma sort_In (l : list A) (x : A) : In x (Query.sort before l) <-> In x l.
Proof.
  split; apply Permutation_in; [apply Permutation_sym |]; apply sort_perm.
Qed.

Hypothesis before_total : forall a b, before a b = true \/ before b a = true.
Hypothesis before_trans :
  forall a b c, before a b = true -> before b c = true -> before a c = true.

Lemma insert_sorted_sorted (x : A) (l : list A) :
  StronglySorted (fun a b => before a b = true) l ->
  StronglySorted (fun a b => before a b = true) (Query.insert_sorted before x l).
Proof.
  induction 1 as [| y t Hs IH Hall]; simpl.
  - repeat constructor.
  - destruct (before x y) eqn:E.
    + constructor; [now constructor |].
      constructor; [assumption |].
      rewrite Forall_forall in *. intros z Hz. eauto.
    + constructor; [assumption |].
      rewrite Forall_forall in *. intros z Hz.
      apply (Permutation_in _ (Permutation_sym (insert_sorted_perm x t))) in Hz.
      destruct Hz as [<- | Hz]; [| auto].
      destruct (before_total x y) as [H | H]; congruence.
Qed.

Lemma sort_sorted (l : list A) :
  StronglySorted (fun a b => before a b = true) (Query.sort before l).
Proof.
  induction l as [| x t IH]; simpl.
  - constructor.
  - now apply insert_sorted_sorted.
Qed.

End SortFacts.

Lemma isPinned_createdAt_desc_total (a b : Post.t) :
  isPinned_createdAt_desc a b = true \/ isPinned_createdAt_desc b a = true.
Proof.
  unfold isPinned_createdAt_desc.
  destruct (Post.isPinned a), (Post.isPinned b); simpl; rewrite ?Z.leb_le; auto; lia.
Qed.

Lemma isPinned_createdAt_desc_trans (a b c : Post.t) :
  isPinned_createdAt_desc a b = true -> isPinned_createdAt_desc b c = true ->
  isPinned_createdAt_desc a c = true.
Proof.
  unfold isPinned_createdAt_desc.
  destruct (Post.isPinned a), (Post.isPinned b), (Post.isPinned c); simpl;
    rewrite ?Z.leb_le; auto; try discriminate; lia.
Qed.

Lemma isPinned_createdAt_desc_spec (a b : Post.t) :
  isPinned_createdAt_desc a b = true <-> pinned_first_newest_first a b.
Proof.
  unfold isPinned_createdAt_desc, pinned_first_newest_first.
  destruct (Post.isPinned a), (Post.isPinned b); simpl; rewrite ?Z.leb_le;
    intuition (try discriminate; try lia).
Qed.

(** ** Dropping the null results of a map *)

Lemma filter_not_null_In {A : Type} (l : list (option A)) (x : A) :
  In x (filter_not_null l) <-> In (Some x) l.
Proof.
  induction l as [| [y |] t IH]; simpl.
  - tauto.
  - rewrite IH. split; intros [H | H]; auto; left; congruence.
  - rewrite IH. split; [auto | intros [H | H]; [discriminate | assumption]].
Qed.

(** ** Duplicate removal *)

Lemma findIndex_from_some {A : Type} (f : A -> bool) (l : list A) (i : Z) :
  existsb f l = true ->
  i <= findIndex_from f l i < i + Z.of_nat (length l).
Proof.
  revert i. induction l as [| x t IH]; intros i H; simpl in *.
  - discriminate.
  - destruct (f x); [lia |]. simpl in H. specialize (IH (i + 1) H). lia.
Qed.

Lemma findIndex_from_app {A : Type} (f : A -> bool) (l1 l2 : list A) (i : Z) :
  findIndex_from f (l1 ++ l2) i =
  if existsb f l1 then findIndex_from f l1 i
  else findIndex_from f l2 (i + Z.of_nat (length l1)).
Proof.
  revert i. induction l1 as [| x t IH]; intros i.
  - simpl. f_equal. lia.
  - cbn [app findIndex_from existsb length]. destruct (f x); simpl; [reflexivity |].
    rewrite IH. destruct (existsb f t); [reflexivity |]. f_equal. lia.
Qed.

Lemma findIndex_from_pointwise {A : Type} (f g : A -> bool) (l : list A) (i : Z) :
  (forall x, f x = g x) -> findIndex_from f l i = findIndex_from g l i.
Proof.
  intros H. revert i. induction l as [| x t IH]; intros i; simpl; [reflexivity |].
  now rewrite H, IH.
Qed.

Lemma filter_from_dedup_first (l pre : list Post.t) (seen : list ObjectId) :
  (forall id, mem id seen = existsb (fun p => equals (Post._id p) id) pre) ->
  filter_from
    (fun post index =>
       index =? findIndex (fun p => String.eqb (toString (Post._id p))
                                               (toString (Post._id post))) (pre ++ l))
    l (Z.of_nat (length pre))
  = dedup_first seen l.
Proof.
  revert pre seen. induction l as [| x t IH]; intros pre seen Hseen.
  - reflexivity.
  - cbn [filter_from dedup_first].
    assert (Hidx :
      (Z.of_nat (length pre) =?
       findIndex (fun p => String.eqb (toString (Post._id p)) (toString (Post._id x)))
         (pre ++ x :: t)) = negb (mem (Post._id x) seen)).
    { unfold findIndex.
      rewrite (findIndex_from_pointwise _ (fun p => equals (Post._id p) (Post._id x)))
        by (intros p; apply toString_eqb).
      rewrite findIndex_from_app, Hseen.
      destruct (existsb (fun p => equals (Post._id p) (Post._id x)) pre) eqn:E.
      - apply (findIndex_from_some _ _ 0) in E. simpl. apply Z.eqb_neq. lia.
      - cbn [findIndex_from].
        replace (equals (Post._id x) (Post._id x)) with true
          by (symmetry; now apply equals_true).
        simpl. apply Z.eqb_eq. lia. }
    rewrite Hidx.
    assert (Hnext : Z.of_nat (length pre) + 1 = Z.of_nat (length (pre ++ [x])))
      by (rewrite length_app; simpl; lia).
    rewrite Hnext.
    replace (pre ++ x :: t) with ((pre ++ [x]) ++ t)
      by (now rewrite <- app_assoc).
    destruct (mem (Post._id x) seen) eqn:Em; simpl.
    + apply IH. intros id. rewrite existsb_app. simpl. rewrite orb_false_r.
      rewrite <- Hseen.
      destruct (equals (Post._id x) id) eqn:E.
      * apply equals_true in E. subst id. rewrite Em. reflexivity.
      * now rewrite orb_false_r.
    + f_equal. apply IH. intros id. rewrite existsb_app. simpl.
      rewrite orb_false_r, <- Hseen. unfold mem. simpl. apply orb_comm.
Qed.

Lemma uniquePosts_dedup_first (l : list Post.t) : uniquePosts l = dedup_first [] l.
Proof.
  unfold uniquePosts, filter_index.
  apply (filter_from_dedup_first l [] []). reflexivity.
Qed.

Lemma dedup_first_subseq (seen : list ObjectId) (l : list Post.t) :
  subseq (dedup_first seen l) l.
Proof.
  revert seen. induction l as [| x t IH]; intros seen; simpl.
  - constructor.
  - destruct (mem (Post._id x) seen); constructor; apply IH.
Qed.

Lemma dedup_first_fresh (seen : list ObjectId) (l : list Post.t) (p : Post.t) :
  In p (dedup_first seen l) -> ~ In (Post._id p) seen.
Proof.
  revert seen. induction l as [| x t IH]; intros seen; simpl.
  - tauto.
  - destruct (mem (Post._id x) seen) eqn:E.
    + apply IH.
    + intros [<- | Hin].
      * now apply mem_not_In.
      * apply IH in Hin. simpl in Hin. tauto.
Qed.

Lemma dedup_first_NoDup (seen : list ObjectId) (l : list Post.t) :
  NoDup (map Post._id (dedup_first seen l)).
Proof.
  revert seen. induction l as [| x t IH]; intros seen; simpl.
  - constructor.
  - destruct (mem (Post._id x) seen); [apply IH |].
    simpl. constructor; [| apply IH].
    intros Hin. apply in_map_iff in Hin. destruct Hin as [q [Hq Hin]].
    apply dedup_first_fresh in Hin. rewrite Hq in Hin. simpl in Hin. tauto.
Qed.

Lemma dedup_first_complete (seen : list ObjectId) (l : list Post.t) (p : Post.t) :
  In p l ->
  In (Post._id p) seen \/ In (Post._id p) (map Post._id (dedup_first seen l)).
Proof.
  revert seen. induction l as [| x t IH]; intros seen; simpl.
  - tauto.
  - intros [-> | Hin].
    + destruct (mem (Post._id p) seen) eqn:E.
      * left. now apply mem_In.
      * right. now left.
    + destruct (mem (Post._id x) seen) eqn:E.
      * now apply IH.
      * destruct (IH (Post._id x :: seen) Hin) as [[Heq | Hs] | Hd].
        -- right. left. assumption.
        -- now left.
        -- right. right. assumption.
Qed.

Lemma dedup_first_is_first (seen : list ObjectId) (l : list Post.t) (p : Post.t) :
  In p (dedup_first seen l) ->
  find (fun q => equals (Post._id q) (Post._id p)) l = Some p.
Proof.
  revert seen. induction l as [| x t IH]; intros seen; simpl.
  - tauto.
  - destruct (mem (Post._id x) seen) eqn:E.
    + intros Hin. pose proof (dedup_first_fresh _ _ _ Hin) as Hfresh.
      apply mem_In in E.
      destruct (equals (Post._id x) (Post._id p)) eqn:Ex.
      * apply equals_true in Ex. congruence.
      * eapply IH; eassumption.
    + intros [-> | Hin].
      * replace (equals (Post._id p) (Post._id p)) with true
          by (symmetry; now apply equals_true).
        reflexivity.
      * pose proof (dedup_first_fresh _ _ _ Hin) as Hfresh. simpl in Hfresh.
        destruct (equals (Post._id x) (Post._id p)) eqn:Ex.
        -- apply equals_true in Ex. tauto.
        -- eapply IH; eassumption.
Qed.

(** ** The annotation step *)

Lemma filter_not_null_map_Some {A : Type} (l : list A) :
  filter_not_null (map Some l) = l.
Proof. induction l as [| x t IH]; simpl; congruence. Qed.

Section AnnotationFacts.

Variable throws : Post.t -> bool.

Lemma withUserData_docs (userId : ObjectId) (entries : list (option Post.t)) :
  map doc (filter_not_null (map (withUserData throws userId) entries)) =
  filter (fun p => negb (throws p)) (filter_not_null entries).
Proof.
  induction entries as [| [p |] t IH]; simpl.
  - reflexivity.
  - unfold toObject. destruct (throws p); simpl; [assumption | now f_equal].
  - assumption.
Qed.

Lemma withOptionalUserData_docs (req_user : option ObjectId)
  (entries : list (option Post.t)) :
  map doc (filter_not_null (map (withOptionalUserData throws req_user) entries)) =
  filter (fun p => negb (throws p)) (filter_not_null entries).
Proof.
  induction entries as [| [p |] t IH]; simpl.
  - reflexivity.
  - unfold toObject. destruct (throws p); simpl; [assumption |].
    destruct req_user; simpl; now f_equal.
  - assumption.
Qed.

Lemma withUserData_In (userId : ObjectId) (l : list Post.t) (o : PostObj) :
  In o (filter_not_null (map (withUserData throws userId) (map Some l))) ->
  In (doc o) l
  /\ isLikedByUser o = Some (Post.isLikedBy (doc o) (Some userId)).
Proof.
  rewrite filter_not_null_In, map_map, in_map_iff.
  intros [p [Hp Hin]]. simpl in Hp. unfold toObject in Hp.
  destruct (throws p); [discriminate |].
  injection Hp as <-. simpl. auto.
Qed.

Lemma withOptionalUserData_In (req_user : option ObjectId) (l : list Post.t)
  (o : PostObj) :
  In o (filter_not_null (map (withOptionalUserData throws req_user) (map Some l))) ->
  In (doc o) l
  /\ isLikedByUser o =
     match req_user with
     | Some userId => Some (Post.isLikedBy (doc o) (Some userId))
     | None => None
     end.
Proof.
  rewrite filter_not_null_In, map_map, in_map_iff.
  intros [p [Hp Hin]]. simpl in Hp. unfold toObject in Hp.
  destruct (throws p); [discriminate |].
  destruct req_user; injection Hp as <-; simpl; auto.
Qed.

End AnnotationFacts.

Lemma isLikedBy_In (p : Post.t) (u : ObjectId) :
  Post.isLikedBy p (Some u) = true <-> In u (Post.likes p).
Proof. simpl. apply mem_In. Qed.

(** ** The queries of the three feeds *)

Lemma following_query_subseq (db : DB) (user : User.t) (page limit : Z)
  (posts : list Post.t) :
  following_query db user page limit = Some posts ->
  exists f,
    subseq posts (Query.sort isPinned_createdAt_desc (filter f (db_posts db)))
    /\ (forall p, f p = true ->
          Post.isActive p = true
          /\ (Post.author p = User._id user
              \/ (User.following user <> [] /\ In (Post.author p) (User.following user)))).
Proof.
  unfold following_query.
  destruct (User.following user) as [| f0 fs] eqn:Ef; simpl.
  - intros H.
    destruct (Query.skip _ _) as [sk |] eqn:Es; [| discriminate].
    injection H as <-. eexists. split.
    + eapply subseq_trans; [apply limit_subseq | eapply skip_subseq; eassumption].
    + intros p Hp. apply andb_true_iff in Hp. destruct Hp as [Ha Hact].
      apply equals_true in Ha. auto.
  - intros H.
    destruct (Query.skip _ _) as [sk |] eqn:Es; [| discriminate].
    injection H as <-. eexists. split.
    + eapply subseq_trans; [apply limit_subseq | eapply skip_subseq; eassumption].
    + intros p Hp. apply andb_true_iff in Hp. destruct Hp as [Ha Hact].
      split; [assumption |].
      apply orb_true_iff in Ha. destruct Ha as [Ha | Ha].
      * apply equals_true in Ha. auto.
      * right. split; [discriminate |]. now apply mem_In in Ha.
Qed.

Lemma discover_query_subseq (db : DB) (now page limit : Z) (posts : list Post.t) :
  discover_query db now page limit = Some posts ->
  subseq posts (Query.sort createdAt_desc (filter (discover_filter now) (db_posts db))).
Proof.
  unfold discover_query. intros H.
  destruct (Query.skip _ _) as [sk |] eqn:Es; [| discriminate].
  injection H as <-.
  eapply subseq_trans; [apply limit_subseq | eapply skip_subseq; eassumption].
Qed.

Lemma sorted_filter_limit_In (n : Z) (before : Post.t -> Post.t -> bool)
  (f : Post.t -> bool) (l : list Post.t) (p : Post.t) :
  In p (Query.limit n (Query.sort before (filter f l))) -> In p l /\ f p = true.
Proof.
  intros H. apply (subseq_In _ _ (limit_subseq _ _)) in H.
  apply sort_In in H. now apply filter_In in H.
Qed.

Lemma recentPopular_candidate (db : DB) (now : Z) (excludeIds : list ObjectId)
  (limit : Z) (p : Post.t) :
  In p (recentPopular db now excludeIds limit) -> for_you_candidate db excludeIds p.
Proof.
  unfold recentPopular. intros H. apply sorted_filter_limit_In in H.
  destruct H as [Hin Hf]. rewrite !andb_true_iff, negb_true_iff in Hf.
  destruct Hf as [[[Hex Hact] _] _]. apply mem_not_In in Hex.
  now repeat split.
Qed.

Lemma verifiedArtistsPosts_candidate (db : DB) (now : Z) (excludeIds : list ObjectId)
  (limit : Z) (p : Post.t) :
  In p (verifiedArtistsPosts db now excludeIds limit) ->
  for_you_candidate db excludeIds p.
Proof.
  unfold verifiedArtistsPosts. intros H. apply sorted_filter_limit_In in H.
  destruct H as [Hin Hf]. rewrite !andb_true_iff, negb_true_iff in Hf.
  destruct Hf as [[[Hex _] Hact] _]. apply mem_not_In in Hex.
  now repeat split.
Qed.

Lemma recentDiverse_candidate (db : DB) (now : Z) (excludeIds : list ObjectId)
  (n : Z) (p : Post.t) :
  In p (recentDiverse db now excludeIds n) -> for_you_candidate db excludeIds p.
Proof.
  unfold recentDiverse. intros H. apply sorted_filter_limit_In in H.
  destruct H as [Hin Hf]. rewrite !andb_true_iff, negb_true_iff in Hf.
  destruct Hf as [[Hex Hact] _]. apply mem_not_In in Hex.
  now repeat split.
Qed.

Lemma algorithmPosts_candidate (db : DB) (now : Z) (excludeIds : list ObjectId)
  (limit : Z) (p : Post.t) :
  In p (algorithmPosts db now excludeIds limit) -> for_you_candidate db excludeIds p.
Proof.
  unfold algorithmPosts.
  set (a1 := recentPopular db now excludeIds limit).
  assert (H1 : forall q, In q a1 -> for_you_candidate db excludeIds q)
    by (intros q; apply recentPopular_candidate).
  set (a2 := if Z.of_nat (length a1) <? limit
             then a1 ++ verifiedArtistsPosts db now excludeIds limit else a1).
  assert (H2 : forall q, In q a2 -> for_you_candidate db excludeIds q).
  { intros q. unfold a2. destruct (Z.of_nat (length a1) <? limit); [| apply H1].
    rewrite in_app_iff. intros [Hq | Hq]; [now apply H1 |].
    eapply verifiedArtistsPosts_candidate; eassumption. }
  destruct (Z.of_nat (length a2) <? limit); [| apply H2].
  rewrite in_app_iff. intros [Hq | Hq]; [now apply H2 |].
  eapply recentDiverse_candidate; eassumption.
Qed.

Lemma uniquePosts_subseq (l : list Post.t) : subseq (uniquePosts l) l.
Proof. rewrite uniquePosts_dedup_first. apply dedup_first_subseq. Qed.

Section ForYouFacts.

Variable random_sort : list Post.t -> list Post.t.
Hypothesis random_sort_perm : forall l, Permutation l (random_sort l).

Lemma shuffledPosts_candidate (db : DB) (now : Z) (excludeIds : list ObjectId)
  (page limit : Z) (p : Post.t) :
  In p (shuffledPosts random_sort
          (uniquePosts (algorithmPosts db now excludeIds limit)) page limit) ->
  for_you_candidate db excludeIds p.
Proof.
  unfold shuffledPosts. intros H.
  apply (subseq_In _ _ (subseq_slice _ _ _)) in H.
  apply (Permutation_in _ (Permutation_sym (random_sort_perm _))) in H.
  apply (subseq_In _ _ (uniquePosts_subseq _)) in H.
  eapply algorithmPosts_candidate; eassumption.
Qed.

End ForYouFacts.

(** * The feed properties *)

(** C1: for an authenticated viewer, every post of each of the three
    candidate pools of the for-you feed, and every post of the page the
    feed returns after merging, deduplication, shuffling and windowing,
    is written neither by the viewer nor by a member of the viewer's
    following list. *)
Theorem for_you_excludes_viewer_and_following
  (throws : Post.t -> bool) (random_sort : list Post.t -> list Post.t)
  (db : DB) (now : Z) (userId : ObjectId) (query_page query_limit : option Z)
  (user : User.t) :
  (forall l, Permutation l (random_sort l)) ->
  User.findById (db_users db) userId = Some user ->
  User._id user = userId
  /\ (forall limit p,
        In p (recentPopular db now (User._id user :: User.following user) limit) ->
        from_outside user p)
  /\ (forall limit p,
        In p (verifiedArtistsPosts db now (User._id user :: User.following user) limit) ->
        from_outside user p)
  /\ (forall n p,
        In p (recentDiverse db now (User._id user :: User.following user) n) ->
        from_outside user p)
  /\ exists body,
       feed_for_you throws random_sort db now userId query_page query_limit = Json body
       /\ forall o, In o (posts body) -> from_outside user (doc o).
Proof.
  intros Hperm Hfind.
  assert (Hout : forall p,
             for_you_candidate db (User._id user :: User.following user) p ->
             from_outside user p).
  { intros p (_ & _ & Hex). unfold from_outside. simpl in Hex. split; intro; apply Hex; auto. }
  split; [apply (findById_some _ _ _ Hfind) |].
  split; [intros limit p Hp; eapply Hout, recentPopular_candidate; eassumption |].
  split; [intros limit p Hp; eapply Hout, verifiedArtistsPosts_candidate; eassumption |].
  split; [intros n p Hp; eapply Hout, recentDiverse_candidate; eassumption |].
  unfold feed_for_you. rewrite Hfind. eexists. split; [reflexivity |].
  simpl. intros o Ho. apply withUserData_In in Ho. destruct Ho as [Ho _].
  eapply Hout, shuffledPosts_candidate; eassumption.
Qed.

Lemma for_you_excludes_viewer_and_following_witness :
  User._id Sample.viewer = 1%N
  /\ (forall limit p,
        In p (recentPopular Sample.db Sample.now [1%N; 2%N] limit) ->
        from_outside Sample.viewer p)
  /\ (forall limit p,
        In p (verifiedArtistsPosts Sample.db Sample.now [1%N; 2%N] limit) ->
        from_outside Sample.viewer p)
  /\ (forall n p,
        In p (recentDiverse Sample.db Sample.now [1%N; 2%N] n) ->
        from_outside Sample.viewer p)
  /\ exists body,
       feed_for_you Sample.never_throws Sample.reversing Sample.db Sample.now 1%N
         None None = Json body
       /\ forall o, In o (posts body) -> from_outside Sample.viewer (doc o).
Proof.
  apply (for_you_excludes_viewer_and_following
           Sample.never_throws Sample.reversing Sample.db Sample.now 1%N None None
           Sample.viewer).
  - intros l. apply Permutation_rev.
  - reflexivity.
Defined.

Lemma StronglySorted_weaken {A : Type} (R S : A -> A -> Prop) (l : list A) :
  (forall a b, R a b -> S a b) -> StronglySorted R l -> StronglySorted S l.
Proof.
  intros HRS. induction 1 as [| x t Hs IH Hall]; constructor; [assumption |].
  eapply Forall_impl; [| eassumption]. intros b. apply HRS.
Qed.

(** C2: the following feed of a viewer who follows nobody holds only the
    viewer's own posts; otherwise it holds only posts of the viewer or of
    a followed user; the page is ordered pinned posts first, then by
    creation time, newest first. *)
Theorem following_feed_authors_and_order
  (throws : Post.t -> bool) (db : DB) (userId : ObjectId)
  (query_page query_limit : option Z) (user : User.t) (body : FeedBody) :
  User.findById (db_users db) userId = Some user ->
  feed_following throws db userId query_page query_limit = Json body ->
  (User.following user = [] ->
   forall o, In o (posts body) -> Post.author (doc o) = userId)
  /\ (forall o, In o (posts body) ->
        Post.author (doc o) = userId \/ In (Post.author (doc o)) (User.following user))
  /\ StronglySorted pinned_first_newest_first (map doc (posts body)).
Proof.
  intros Hfind Hfeed. unfold feed_following in Hfeed. rewrite Hfind in Hfeed.
  destruct (following_query db user _ _) as [ps |] eqn:Eq; [| discriminate].
  injection Hfeed as <-. cbn [posts].
  destruct (findById_some _ _ _ Hfind) as [_ Hid].
  destruct (following_query_subseq _ _ _ _ _ Eq) as [f [Hsub Hf]].
  assert (Hmem : forall o,
             In o (filter_not_null (map (withUserData throws (User._id user)) (map Some ps))) ->
             Post.isActive (doc o) = true
             /\ (Post.author (doc o) = User._id user
                 \/ (User.following user <> []
                     /\ In (Post.author (doc o)) (User.following user)))).
  { intros o Ho. apply withUserData_In in Ho. destruct Ho as [Ho _].
    apply (subseq_In _ _ Hsub) in Ho. apply sort_In, filter_In in Ho.
    apply Hf, Ho. }
  split; [| split].
  - intros Hnone o Ho. destruct (Hmem o Ho) as [_ [H | [H _]]]; congruence.
  - intros o Ho. destruct (Hmem o Ho) as [_ [H | [_ H]]]; [left; congruence | now right].
  - rewrite withUserData_docs, filter_not_null_map_Some.
    eapply subseq_StronglySorted.
    + eapply subseq_trans; [apply subseq_filter | exact Hsub].
    + eapply StronglySorted_weaken; [| apply sort_sorted].
      * intros a b. apply isPinned_createdAt_desc_spec.
      * apply isPinned_createdAt_desc_total.
      * apply isPinned_createdAt_desc_trans.
Qed.

Lemma following_feed_authors_and_order_witness :
  exists body,
    feed_following Sample.never_throws Sample.db 1%N None None = Json body
    /\ (User.following Sample.viewer = [] ->
        forall o, In o (posts body) -> Post.author (doc o) = 1%N)
    /\ (forall o, In o (posts body) ->
          Post.author (doc o) = 1%N
          \/ In (Post.author (doc o)) (User.following Sample.viewer))
    /\ StronglySorted pinned_first_newest_first (map doc (posts body)).
Proof.
  eexists. split; [reflexivity |].
  apply (following_feed_authors_and_order
           Sample.never_throws Sample.db 1%N None None Sample.viewer);
    reflexivity.
Defined.

(** C3: duplicate removal on the concatenated candidate pools yields each
    post identity of the input exactly once, keeps for each identity the
    first post seen, and keeps the posts in the order of the input. *)
Theorem uniquePosts_keeps_first_occurrences (l : list Post.t) :
  uniquePosts l = dedup_first [] l
  /\ (forall p, In p l ->
        count_occ N.eq_dec (map Post._id (uniquePosts l)) (Post._id p) = 1%nat)
  /\ (forall p, In p (uniquePosts l) ->
        find (fun q => equals (Post._id q) (Post._id p)) l = Some p)
  /\ subseq (uniquePosts l) l.
Proof.
  rewrite uniquePosts_dedup_first.
  split; [reflexivity |]. split; [| split].
  - intros p Hp.
    pose proof (dedup_first_NoDup [] l) as Hnd.
    rewrite (NoDup_count_occ N.eq_dec) in Hnd. specialize (Hnd (Post._id p)).
    destruct (dedup_first_complete [] l p Hp) as [[] | Hin].
    apply (count_occ_In N.eq_dec) in Hin. lia.
  - intros p. apply dedup_first_is_first.
  - apply dedup_first_subseq.
Qed.

(** C4: a post whose active flag is false is in the page of none of the
    three feeds, whatever the viewer, the page and the limit. *)
Theorem inactive_posts_never_returned
  (throws : Post.t -> bool) (random_sort : list Post.t -> list Post.t)
  (db : DB) (now : Z) (userId : ObjectId) (req_user : option ObjectId)
  (query_page query_limit : option Z) (p : Post.t) :
  (forall l, Permutation l (random_sort l)) ->
  Post.isActive p = false ->
  (forall body,
     feed_following throws db userId query_page query_limit = Json body ->
     ~ In p (map doc (posts body)))
  /\ (forall body,
        feed_for_you throws random_sort db now userId query_page query_limit = Json body ->
        ~ In p (map doc (posts body)))
  /\ (forall body,
        discover throws db now req_user query_page query_limit = Json body ->
        ~ In p (map doc (posts body))).
Proof.
  intros Hperm Hinactive. split; [| split]; intros body Hfeed Hin.
  - unfold feed_following in Hfeed.
    destruct (User.findById _ _) as [user |]; [| discriminate].
    destruct (following_query db user _ _) as [ps |] eqn:Eq; [| discriminate].
    injection Hfeed as <-. cbn [posts] in Hin.
    rewrite withUserData_docs, filter_not_null_map_Some in Hin.
    apply filter_In in Hin. destruct Hin as [Hin _].
    destruct (following_query_subseq _ _ _ _ _ Eq) as [f [Hsub Hf]].
    apply (subseq_In _ _ Hsub) in Hin. apply sort_In, filter_In in Hin.
    destruct Hin as [_ Hfp]. apply Hf in Hfp. destruct Hfp as [Hact _]. congruence.
  - unfold feed_for_you in Hfeed.
    destruct (User.findById _ _) as [user |]; [| discriminate].
    injection Hfeed as <-. cbn [posts] in Hin.
    rewrite withUserData_docs, filter_not_null_map_Some in Hin.
    apply filter_In in Hin. destruct Hin as [Hin _].
    apply (shuffledPosts_candidate _ Hperm) in Hin.
    destruct Hin as (_ & Hact & _). congruence.
  - unfold discover in Hfeed.
    destruct (discover_query db now _ _) as [ps |] eqn:Eq; [| discriminate].
    injection Hfeed as <-. cbn [posts] in Hin.
    rewrite withOptionalUserData_docs, filter_not_null_map_Some in Hin.
    apply filter_In in Hin. destruct Hin as [Hin _].
    apply (subseq_In _ _ (discover_query_subseq _ _ _ _ _ Eq)) in Hin.
    apply sort_In, filter_In in Hin. destruct Hin as [_ Hfp].
    unfold discover_filter in Hfp. apply andb_true_iff in Hfp.
    destruct Hfp as [Hact _]. congruence.
Qed.

Lemma inactive_posts_never_returned_witness :
  (forall body,
     feed_following Sample.never_throws Sample.db 1%N None None = Json body ->
     ~ In Sample.P5 (map doc (posts body)))
  /\ (forall body,
        feed_for_you Sample.never_throws Sample.reversing Sample.db Sample.now 1%N
          None None = Json body ->
        ~ In Sample.P5 (map doc (posts body)))
  /\ (forall body,
        discover Sample.never_throws Sample.db Sample.now None None None = Json body ->
        ~ In Sample.P5 (map doc (posts body))).
Proof.
  apply (inactive_posts_never_returned
           Sample.never_throws Sample.reversing Sample.db Sample.now 1%N None
           None None Sample.P5).
  - intros l. apply Permutation_rev.
  - reflexivity.
Defined.

(** ** Pagination windows *)

Lemma window_length {A : Type} (l : list A) (page limit : Z) :
  0 <= limit -> Z.of_nat (length (window l page limit)) <= limit.
Proof. intros H. unfold window. rewrite length_firstn. lia. Qed.

Lemma window_first_page {A : Type} (l : list A) (limit : Z) :
  window l 1 limit = firstn (Z.to_nat limit) l.
Proof. unfold window. reflexivity. Qed.

Lemma window_nth_error {A : Type} (l : list A) (page limit : Z) (i : nat) :
  1 <= page -> 0 < limit -> (i < Z.to_nat limit)%nat ->
  nth_error (window l page limit) i =
  nth_error l (Z.to_nat ((page - 1) * limit) + i).
Proof.
  intros Hp Hl Hi. unfold window.
  rewrite nth_error_firstn, nth_error_skipn.
  destruct (Nat.ltb_spec i (Z.to_nat limit)); [reflexivity | lia].
Qed.

Lemma window_covers {A : Type} (l : list A) (limit : Z) (x : A) :
  0 < limit -> In x l -> exists page, 1 <= page /\ In x (window l page limit).
Proof.
  intros Hl Hin. apply In_nth_error in Hin. destruct Hin as [n Hn].
  exists (Z.of_nat n / limit + 1). split.
  - pose proof (Z.div_pos (Z.of_nat n) limit). lia.
  - apply (nth_error_In _ (Z.to_nat (Z.of_nat n mod limit))).
    rewrite window_nth_error.
    + rewrite <- Hn. f_equal.
      pose proof (Z.div_mod (Z.of_nat n) limit).
      pose proof (Z.mod_pos_bound (Z.of_nat n) limit Hl).
      pose proof (Z.div_pos (Z.of_nat n) limit).
      replace (Z.of_nat n / limit + 1 - 1) with (Z.of_nat n / limit) by lia.
      nia.
    + pose proof (Z.div_pos (Z.of_nat n) limit). lia.
    + assumption.
    + pose proof (Z.mod_pos_bound (Z.of_nat n) limit Hl). lia.
Qed.

Lemma following_query_window (db : DB) (user : User.t) (page limit : Z) :
  1 <= page -> 0 < limit ->
  following_query db user page limit =
  Some (window (following_candidates db user) page limit).
Proof.
  intros Hp Hl. unfold following_query, following_candidates, window.
  assert (Hs : 0 <= (page - 1) * limit) by nia.
  destruct (User.following user) as [| f0 fs]; cbn [length Nat.ltb Nat.leb Nat.eqb].
  - rewrite skip_nonneg by assumption. simpl.
    rewrite limit_positive by assumption. do 4 f_equal.
    apply filter_ext. intros p. unfold mem. simpl. now rewrite orb_false_r.
  - rewrite skip_nonneg by assumption. simpl.
    now rewrite limit_positive by assumption.
Qed.

Lemma discover_query_window (db : DB) (now page limit : Z) :
  1 <= page -> 0 < limit ->
  discover_query db now page limit =
  Some (window (discover_candidates db now) page limit).
Proof.
  intros Hp Hl. unfold discover_query, discover_candidates, window.
  assert (Hs : 0 <= (page - 1) * limit) by nia.
  rewrite skip_nonneg by assumption. simpl.
  now rewrite limit_positive by assumption.
Qed.

Lemma discover_filter_spec (now : Z) (p : Post.t) :
  discover_filter now p = true <->
  Post.isActive p = true
  /\ (1 <= interactions p \/ now - days 7 <= Post.createdAt p).
Proof.
  unfold discover_filter.
  rewrite andb_true_iff, orb_true_iff, !Z.leb_le. tauto.
Qed.

Lemma parse_or_positive (n d : Z) : 0 < n -> parse_or (Some n) d = n.
Proof.
  intros Hn. unfold parse_or.
  destruct (n =? 0) eqn:E; [apply Z.eqb_eq in E; lia | reflexivity].
Qed.

Lemma discover_query_member (db : DB) (now page limit : Z) (ps : list Post.t)
  (p : Post.t) :
  discover_query db now page limit = Some ps -> In p ps ->
  In p (db_posts db) /\ discover_filter now p = true.
Proof.
  intros Hq Hin.
  apply (subseq_In _ _ (discover_query_subseq _ _ _ _ _ Hq)) in Hin.
  now apply sort_In, filter_In in Hin.
Qed.

Lemma discover_docs (throws : Post.t -> bool) (db : DB) (now : Z)
  (req_user : option ObjectId) (query_page query_limit : option Z) (body : FeedBody) :
  discover throws db now req_user query_page query_limit = Json body ->
  exists ps,
    discover_query db now (parse_or query_page 1) (parse_or query_limit 10) = Some ps
    /\ map doc (posts body) = filter (fun p => negb (throws p)) ps.
Proof.
  unfold discover. intros Hfeed.
  destruct (discover_query db now _ _) as [ps |]; [| discriminate].
  injection Hfeed as <-. exists ps. split; [reflexivity |]. cbn [posts].
  now rewrite withOptionalUserData_docs, filter_not_null_map_Some.
Qed.

(** C5: with a positive page size, a post is on some page of the discover
    feed exactly when it is stored, active, has one interaction or more
    (likes plus comments) or was created within the last 7 days, and
    converts to a response object; so a post without likes and comments
    created 8 days ago is on no page, and the same post created 1 day ago
    is on one. *)
Theorem discover_inclusion
  (throws : Post.t -> bool) (db : DB) (now : Z) (req_user : option ObjectId)
  (limit : Z) (p : Post.t) :
  0 < limit ->
  ((exists page body,
      1 <= page
      /\ discover throws db now req_user (Some page) (Some limit) = Json body
      /\ In p (map doc (posts body)))
   <-> In p (db_posts db)
       /\ Post.isActive p = true
       /\ (1 <= interactions p \/ now - days 7 <= Post.createdAt p)
       /\ throws p = false)
  /\ (Post.likes p = [] -> Post.comments p = [] ->
      Post.createdAt p = now - days 8 ->
      forall query_page query_limit body,
        discover throws db now req_user query_page query_limit = Json body ->
        ~ In p (map doc (posts body)))
  /\ (Post.likes p = [] -> Post.comments p = [] ->
      Post.createdAt p = now - days 1 ->
      In p (db_posts db) -> Post.isActive p = true -> throws p = false ->
      exists page body,
        1 <= page
        /\ discover throws db now req_user (Some page) (Some limit) = Json body
        /\ In p (map doc (posts body))).
Proof.
  intros Hl.
  assert (Hback : In p (db_posts db) -> discover_filter now p = true ->
                  throws p = false ->
                  exists page body,
                    1 <= page
                    /\ discover throws db now req_user (Some page) (Some limit) = Json body
                    /\ In p (map doc (posts body))).
  { intros Hin Hf Hconv.
    assert (Hc : In p (discover_candidates db now)).
    { unfold discover_candidates. apply sort_In, filter_In. now split. }
    destruct (window_covers _ limit p Hl Hc) as [page [Hp Hw]].
    exists page. unfold discover.
    rewrite !parse_or_positive by lia.
    rewrite discover_query_window by assumption.
    eexists. split; [assumption |]. split; [reflexivity |]. cbn [posts].
    rewrite withOptionalUserData_docs, filter_not_null_map_Some.
    apply filter_In. split; [assumption |]. now rewrite Hconv. }
  split; [| split].
  - split.
    + intros (page & body & _ & Hfeed & Hin).
      destruct (discover_docs _ _ _ _ _ _ _ Hfeed) as [ps [Hq Hdocs]].
      rewrite Hdocs in Hin. apply filter_In in Hin. destruct Hin as [Hin Hconv].
      destruct (discover_query_member _ _ _ _ _ _ Hq Hin) as [Hdb Hf].
      apply discover_filter_spec in Hf. apply negb_true_iff in Hconv. tauto.
    + intros (Hdb & Hact & Hcond & Hconv). apply Hback; [assumption | | assumption].
      apply discover_filter_spec. tauto.
  - intros Hlikes Hcomments Hold query_page query_limit body Hfeed Hin.
    destruct (discover_docs _ _ _ _ _ _ _ Hfeed) as [ps [Hq Hdocs]].
    rewrite Hdocs in Hin. apply filter_In in Hin. destruct Hin as [Hin _].
    destruct (discover_query_member _ _ _ _ _ _ Hq Hin) as [_ Hf].
    apply discover_filter_spec in Hf. destruct Hf as [_ Hcond].
    unfold interactions in Hcond. rewrite Hlikes, Hcomments, Hold in Hcond.
    unfold days in Hcond. cbn [length] in Hcond. lia.
  - intros Hlikes Hcomments Hnew Hdb Hact Hconv. apply Hback; [assumption | | assumption].
    apply discover_filter_spec. split; [assumption |].
    right. rewrite Hnew. unfold days. lia.
Qed.

Lemma discover_inclusion_witness :
  0 < 2
  /\ ((exists page body,
         1 <= page
         /\ discover Sample.never_throws Sample.db Sample.now None (Some page) (Some 2)
            = Json body
         /\ In Sample.P1 (map doc (posts body)))
      <-> In Sample.P1 (db_posts Sample.db)
          /\ Post.isActive Sample.P1 = true
          /\ (1 <= interactions Sample.P1
              \/ Sample.now - days 7 <= Post.createdAt Sample.P1)
          /\ Sample.never_throws Sample.P1 = false).
Proof.
  split; [lia |].
  apply (discover_inclusion Sample.never_throws Sample.db Sample.now None 2 Sample.P1).
  lia.
Defined.

(** The discover scenario on the sample data: the old post without
    interactions is left out, the recent one with a like is in. *)
Example discover_scenario :
  exists body,
    discover Sample.never_throws Sample.db Sample.now None None None = Json body
    /\ In Sample.P4 (map doc (posts body))
    /\ ~ In Sample.P3 (map doc (posts body)).
Proof.
  eexists. split; [reflexivity |]. split.
  - simpl. auto.
  - simpl. intros H. repeat (destruct H as [H | H]; [discriminate H |]). exact H.
Qed.

Lemma window_full_iff {A : Type} (l : list A) (page limit : Z) :
  1 <= page -> 0 < limit ->
  (Z.of_nat (length (window l page limit)) = limit
   <-> page * limit <= Z.of_nat (length l)).
Proof.
  intros Hp Hl. unfold window. rewrite length_firstn, length_skipn.
  assert (Hs : 0 <= (page - 1) * limit) by nia.
  assert (He : page * limit = (page - 1) * limit + limit) by lia.
  rewrite He. remember ((page - 1) * limit) as s eqn:Es. clear Es He. lia.
Qed.

(** C6: in the following feed, [hasNext] is true exactly when the query
    returned [limit] posts, counted before the posts that fail to convert
    are dropped: with a limit of 10, a query result of 10 posts gives
    true and one of 7 posts gives false; for a valid page and limit this
    is the case exactly when the candidate pool has [page * limit] posts
    or more.  In the for-you feed, [hasNext] is true exactly when the
    slice taken from the shuffled candidates has [limit] posts. *)
Theorem hasNext_rule
  (throws : Post.t -> bool) (random_sort : list Post.t -> list Post.t)
  (db : DB) (now : Z) (userId : ObjectId) (query_page query_limit : option Z)
  (user : User.t) :
  User.findById (db_users db) userId = Some user ->
  (forall ps,
     following_query db user (parse_or query_page 1) (parse_or query_limit 10) = Some ps ->
     exists body,
       feed_following throws db userId query_page query_limit = Json body
       /\ (hasNext (pagination body) = true
           <-> Z.of_nat (length ps) = parse_or query_limit 10)
       /\ (parse_or query_limit 10 = 10 -> length ps = 10%nat ->
           hasNext (pagination body) = true)
       /\ (parse_or query_limit 10 = 10 -> length ps = 7%nat ->
           hasNext (pagination body) = false)
       /\ (1 <= parse_or query_page 1 -> 0 < parse_or query_limit 10 ->
           (hasNext (pagination body) = true
            <-> parse_or query_page 1 * parse_or query_limit 10
                <= Z.of_nat (length (following_candidates db user)))))
  /\ (exists body,
        feed_for_you throws random_sort db now userId query_page query_limit = Json body
        /\ (hasNext (pagination body) = true
            <-> Z.of_nat
                  (length
                     (shuffledPosts random_sort
                        (uniquePosts
                           (algorithmPosts db now (User._id user :: User.following user)
                              (parse_or query_limit 10)))
                        (parse_or query_page 1) (parse_or query_limit 10)))
                = parse_or query_limit 10)).
Proof.
  intros Hfind. split.
  - intros ps Hq. unfold feed_following. rewrite Hfind, Hq.
    eexists. split; [reflexivity |]. cbn [pagination hasNext].
    split; [apply Z.eqb_eq |].
    split; [intros -> Hlen; rewrite Hlen; reflexivity |].
    split; [intros -> Hlen; rewrite Hlen; reflexivity |].
    intros Hp Hl. rewrite Z.eqb_eq.
    rewrite following_query_window in Hq by assumption.
    injection Hq as <-. now apply window_full_iff.
  - unfold feed_for_you. rewrite Hfind.
    eexists. split; [reflexivity |]. cbn [pagination hasNext]. apply Z.eqb_eq.
Qed.

Lemma hasNext_rule_witness :
  (forall ps,
     following_query Sample.db Sample.viewer (parse_or None 1) (parse_or (Some 2) 10)
     = Some ps ->
     exists body,
       feed_following Sample.never_throws Sample.db 1%N None (Some 2) = Json body
       /\ (hasNext (pagination body) = true
           <-> Z.of_nat (length ps) = parse_or (Some 2) 10)
       /\ (parse_or (Some 2) 10 = 10 -> length ps = 10%nat ->
           hasNext (pagination body) = true)
       /\ (parse_or (Some 2) 10 = 10 -> length ps = 7%nat ->
           hasNext (pagination body) = false)
       /\ (1 <= parse_or None 1 -> 0 < parse_or (Some 2) 10 ->
           (hasNext (pagination body) = true
            <-> parse_or None 1 * parse_or (Some 2) 10
                <= Z.of_nat (length (following_candidates Sample.db Sample.viewer)))))
  /\ (exists body,
        feed_for_you Sample.never_throws Sample.reversing Sample.db Sample.now 1%N
          None (Some 2) = Json body
        /\ (hasNext (pagination body) = true
            <-> Z.of_nat
                  (length
                     (shuffledPosts Sample.reversing
                        (uniquePosts
                           (algorithmPosts Sample.db Sample.now
                              (User._id Sample.viewer :: User.following Sample.viewer)
                              (parse_or (Some 2) 10)))
                        (parse_or None 1) (parse_or (Some 2) 10)))
                = parse_or (Some 2) 10)).
Proof.
  apply (hasNext_rule Sample.never_throws Sample.reversing Sample.db Sample.now 1%N
           None (Some 2) Sample.viewer).
  reflexivity.
Defined.

(** The scenario of the specification: a viewer with 10 active posts of
    their own and a limit of 10 gets [hasNext = true]; with 7 posts,
    [hasNext = false]. *)
Example hasNext_scenario :
  (exists body,
     feed_following Sample.never_throws
       (mkDB (Sample.own_posts 10) [Sample.loner]) 4%N None (Some 10) = Json body
     /\ length (posts body) = 10%nat
     /\ hasNext (pagination body) = true)
  /\ (exists body,
        feed_following Sample.never_throws
          (mkDB (Sample.own_posts 7) [Sample.loner]) 4%N None (Some 10) = Json body
        /\ length (posts body) = 7%nat
        /\ hasNext (pagination body) = false).
Proof. split; eexists; (split; [reflexivity | split; reflexivity]). Qed.

(** C7: for a request with page at least 1 and a positive limit, each feed
    answers with the posts, minus those that fail to convert, of the
    window from offset [(page - 1) * limit] (included) to [page * limit]
    (excluded) of its source sequence, which for the for-you feed is the
    shuffled one; the page has at most [limit] posts, and for page 1 the
    window is the first [limit] elements of the source. *)
Theorem feed_page_is_window
  (throws : Post.t -> bool) (random_sort : list Post.t -> list Post.t)
  (db : DB) (now : Z) (userId : ObjectId) (req_user : option ObjectId)
  (query_page query_limit : option Z) (user : User.t) (page limit : Z) :
  parse_or query_page 1 = page -> parse_or query_limit 10 = limit ->
  1 <= page -> 0 < limit ->
  User.findById (db_users db) userId = Some user ->
  (exists body,
     feed_following throws db userId query_page query_limit = Json body
     /\ following_query db user page limit
        = Some (window (following_candidates db user) page limit)
     /\ map doc (posts body)
        = filter (fun p => negb (throws p))
            (window (following_candidates db user) page limit)
     /\ Z.of_nat (length (posts body)) <= limit)
  /\ (exists body,
        feed_for_you throws random_sort db now userId query_page query_limit = Json body
        /\ shuffledPosts random_sort
             (uniquePosts (algorithmPosts db now (User._id user :: User.following user) limit))
             page limit
           = window
               (random_sort
                  (uniquePosts
                     (algorithmPosts db now (User._id user :: User.following user) limit)))
               page limit
        /\ map doc (posts body)
           = filter (fun p => negb (throws p))
               (window
                  (random_sort
                     (uniquePosts
                        (algorithmPosts db now (User._id user :: User.following user)
                           limit)))
                  page limit)
        /\ Z.of_nat (length (posts body)) <= limit)
  /\ (exists body,
        discover throws db now req_user query_page query_limit = Json body
        /\ discover_query db now page limit
           = Some (window (discover_candidates db now) page limit)
        /\ map doc (posts body)
           = filter (fun p => negb (throws p))
               (window (discover_candidates db now) page limit)
        /\ Z.of_nat (length (posts body)) <= limit)
  /\ (forall (A : Type) (source : list A) (i : nat),
        (i < Z.to_nat limit)%nat ->
        nth_error (window source page limit) i
        = nth_error source (Z.to_nat ((page - 1) * limit) + i))
  /\ (page = 1 ->
      forall (A : Type) (source : list A),
        window source page limit = firstn (Z.to_nat limit) source).
Proof.
  intros Hpage Hlimit Hp Hl Hfind.
  assert (Hbound : forall (l : list PostObj) (w : list Post.t) (f : Post.t -> bool),
             map doc l = filter f w ->
             Z.of_nat (length w) <= limit -> Z.of_nat (length l) <= limit).
  { intros l w f Hmap Hw. rewrite <- (length_map doc), Hmap.
    pose proof (subseq_length _ _ (subseq_filter f w)). lia. }
  split; [| split; [| split; [| split]]].
  - unfold feed_following. rewrite Hfind, Hpage, Hlimit.
    rewrite following_query_window by assumption.
    eexists. split; [reflexivity |]. cbn [posts].
    split; [reflexivity |].
    assert (Hdocs := withUserData_docs throws (User._id user)
                       (map Some (window (following_candidates db user) page limit))).
    rewrite filter_not_null_map_Some in Hdocs.
    split; [exact Hdocs |].
    eapply Hbound; [exact Hdocs | apply window_length; lia].
  - unfold feed_for_you. rewrite Hfind, Hpage, Hlimit.
    eexists. split; [reflexivity |]. cbn [posts].
    assert (Hw := slice_window
                    (random_sort
                       (uniquePosts
                          (algorithmPosts db now (User._id user :: User.following user)
                             limit)))
                    page limit Hp Hl).
    unfold shuffledPosts. split; [exact Hw |].
    assert (Hdocs := withUserData_docs throws (User._id user)
                       (map Some
                          (slice
                             (random_sort
                                (uniquePosts
                                   (algorithmPosts db now
                                      (User._id user :: User.following user) limit)))
                             ((page - 1) * limit) (page * limit)))).
    rewrite filter_not_null_map_Some, Hw in Hdocs.
    rewrite Hw. split; [exact Hdocs |].
    eapply Hbound; [exact Hdocs | apply window_length; lia].
  - unfold discover. rewrite Hpage, Hlimit.
    rewrite discover_query_window by assumption.
    eexists. split; [reflexivity |]. cbn [posts].
    split; [reflexivity |].
    assert (Hdocs := withOptionalUserData_docs throws req_user
                       (map Some (window (discover_candidates db now) page limit))).
    rewrite filter_not_null_map_Some in Hdocs.
    split; [exact Hdocs |].
    eapply Hbound; [exact Hdocs | apply window_length; lia].
  - intros A source i Hi. now apply window_nth_error.
  - intros -> A source. apply window_first_page.
Qed.

Lemma feed_page_is_window_witness :
  (parse_or (Some 1) 1 = 1 /\ parse_or (Some 2) 10 = 2 /\ 1 <= 1 /\ 0 < 2
   /\ User.findById (db_users Sample.db) 1%N = Some Sample.viewer)
  /\ (exists body,
        feed_following Sample.throws_on_pinned Sample.db 1%N (Some 1) (Some 2) = Json body
        /\ following_query Sample.db Sample.viewer 1 2
           = Some (window (following_candidates Sample.db Sample.viewer) 1 2)
        /\ map doc (posts body)
           = filter (fun p => negb (Sample.throws_on_pinned p))
               (window (following_candidates Sample.db Sample.viewer) 1 2)
        /\ Z.of_nat (length (posts body)) <= 2)
  /\ (exists body,
        feed_for_you Sample.throws_on_pinned Sample.reversing Sample.db Sample.now 1%N
          (Some 1) (Some 2) = Json body
        /\ shuffledPosts Sample.reversing
             (uniquePosts
                (algorithmPosts Sample.db Sample.now
                   (User._id Sample.viewer :: User.following Sample.viewer) 2))
             1 2
           = window
               (Sample.reversing
                  (uniquePosts
                     (algorithmPosts Sample.db Sample.now
                        (User._id Sample.viewer :: User.following Sample.viewer) 2)))
               1 2
        /\ map doc (posts body)
           = filter (fun p => negb (Sample.throws_on_pinned p))
               (window
                  (Sample.reversing
                     (uniquePosts
                        (algorithmPosts Sample.db Sample.now
                           (User._id Sample.viewer :: User.following Sample.viewer) 2)))
                  1 2)
        /\ Z.of_nat (length (posts body)) <= 2)
  /\ (exists body,
        discover Sample.throws_on_pinned Sample.db Sample.now (Some 1%N)
          (Some 1) (Some 2) = Json body
        /\ discover_query Sample.db Sample.now 1 2
           = Some (window (discover_candidates Sample.db Sample.now) 1 2)
        /\ map doc (posts body)
           = filter (fun p => negb (Sample.throws_on_pinned p))
               (window (discover_candidates Sample.db Sample.now) 1 2)
        /\ Z.of_nat (length (posts body)) <= 2)
  /\ (forall (A : Type) (source : list A) (i : nat),
        (i < Z.to_nat 2)%nat ->
        nth_error (window source 1 2) i
        = nth_error source (Z.to_nat ((1 - 1) * 2) + i))
  /\ (1 = 1 ->
      forall (A : Type) (source : list A),
        window source 1 2 = firstn (Z.to_nat 2) source).
Proof.
  split.
  - repeat split; reflexivity || lia.
  - apply (feed_page_is_window Sample.throws_on_pinned Sample.reversing Sample.db
             Sample.now 1%N (Some 1%N) (Some 1) (Some 2) Sample.viewer 1 2);
      reflexivity || lia.
Defined.

(** C8: on every page computed for an authenticated viewer, by any of the
    three feeds, the field [isLikedByUser] of a post is present and is
    true exactly when the viewer is among the likes of the post; on a page
    of the discover feed computed for an anonymous request the field is
    absent from every post. *)
Theorem isLikedByUser_annotation
  (throws : Post.t -> bool) (random_sort : list Post.t -> list Post.t)
  (db : DB) (now : Z) (userId : ObjectId) (query_page query_limit : option Z) :
  (forall body o,
     feed_following throws db userId query_page query_limit = Json body ->
     In o (posts body) ->
     exists b, isLikedByUser o = Some b
               /\ (b = true <-> In userId (Post.likes (doc o))))
  /\ (forall body o,
        feed_for_you throws random_sort db now userId query_page query_limit = Json body ->
        In o (posts body) ->
        exists b, isLikedByUser o = Some b
                  /\ (b = true <-> In userId (Post.likes (doc o))))
  /\ (forall body o,
        discover throws db now (Some userId) query_page query_limit = Json body ->
        In o (posts body) ->
        exists b, isLikedByUser o = Some b
                  /\ (b = true <-> In userId (Post.likes (doc o))))
  /\ (forall body o,
        discover throws db now None query_page query_limit = Json body ->
        In o (posts body) ->
        isLikedByUser o = None).
Proof.
  split; [| split; [| split]]; intros body o Hfeed Hin.
  - unfold feed_following in Hfeed.
    destruct (User.findById _ _) as [user |] eqn:Hfind; [| discriminate].
    destruct (following_query db user _ _) as [ps |]; [| discriminate].
    injection Hfeed as <-. cbn [posts] in Hin.
    apply withUserData_In in Hin. destruct Hin as [_ Hflag].
    destruct (findById_some _ _ _ Hfind) as [_ Hid]. rewrite Hid in Hflag.
    eexists. split; [exact Hflag | apply isLikedBy_In].
  - unfold feed_for_you in Hfeed.
    destruct (User.findById _ _) as [user |] eqn:Hfind; [| discriminate].
    injection Hfeed as <-. cbn [posts] in Hin.
    apply withUserData_In in Hin. destruct Hin as [_ Hflag].
    destruct (findById_some _ _ _ Hfind) as [_ Hid]. rewrite Hid in Hflag.
    eexists. split; [exact Hflag | apply isLikedBy_In].
  - unfold discover in Hfeed.
    destruct (discover_query db now _ _) as [ps |]; [| discriminate].
    injection Hfeed as <-. cbn [posts] in Hin.
    apply withOptionalUserData_In in Hin. destruct Hin as [_ Hflag].
    eexists. split; [exact Hflag | apply isLikedBy_In].
  - unfold discover in Hfeed.
    destruct (discover_query db now _ _) as [ps |]; [| discriminate].
    injection Hfeed as <-. cbn [posts] in Hin.
    apply withOptionalUserData_In in Hin. now destruct Hin as [_ Hflag].
Qed.

(** The annotation on the sample data: the viewer has liked the second
    post of the discover page and not the first; anonymously, neither
    carries the field. *)
Example isLikedByUser_scenario :
  (exists body,
     discover Sample.never_throws Sample.db Sample.now (Some 1%N) None (Some 2) = Json body
     /\ map (fun o => (Post._id (doc o), isLikedByUser o)) (posts body)
        = [(16%N, Some false); (14%N, Some true)])
  /\ (exists body,
        discover Sample.never_throws Sample.db Sample.now None None (Some 2) = Json body
        /\ map (fun o => (Post._id (doc o), isLikedByUser o)) (posts body)
           = [(16%N, None); (14%N, None)]).
Proof. split; eexists; (split; reflexivity). Qed.

(** C9: a post entry that is null, or whose conversion to a response
    object throws, is left out of the page by the annotation step of each
    feed, and the posts that do convert are all returned, in order: once
    the viewer and the query are resolved, the three feeds answer with a
    body, never with a failure. *)
Theorem item_failures_are_dropped
  (throws : Post.t -> bool) (random_sort : list Post.t -> list Post.t)
  (db : DB) (now : Z) (userId : ObjectId) (req_user : option ObjectId)
  (query_page query_limit : option Z) (user : User.t) :
  User.findById (db_users db) userId = Some user ->
  (forall entries : list (option Post.t),
     map doc (filter_not_null (map (withUserData throws userId) entries))
     = filter (fun p => negb (throws p)) (filter_not_null entries))
  /\ (forall entries : list (option Post.t),
        map doc (filter_not_null (map (withOptionalUserData throws req_user) entries))
        = filter (fun p => negb (throws p)) (filter_not_null entries))
  /\ (forall ps,
        following_query db user (parse_or query_page 1) (parse_or query_limit 10)
        = Some ps ->
        exists body,
          feed_following throws db userId query_page query_limit = Json body
          /\ map doc (posts body) = filter (fun p => negb (throws p)) ps)
  /\ (exists body,
        feed_for_you throws random_sort db now userId query_page query_limit = Json body
        /\ map doc (posts body)
           = filter (fun p => negb (throws p))
               (shuffledPosts random_sort
                  (uniquePosts
                     (algorithmPosts db now (User._id user :: User.following user)
                        (parse_or query_limit 10)))
                  (parse_or query_page 1) (parse_or query_limit 10)))
  /\ (forall ps,
        discover_query db now (parse_or query_page 1) (parse_or query_limit 10)
        = Some ps ->
        exists body,
          discover throws db now req_user query_page query_limit = Json body
          /\ map doc (posts body) = filter (fun p => negb (throws p)) ps).
Proof.
  intros Hfind.
  split; [apply withUserData_docs |].
  split; [apply withOptionalUserData_docs |].
  split; [| split].
  - intros ps Hq. unfold feed_following. rewrite Hfind, Hq.
    eexists. split; [reflexivity |]. cbn [posts].
    now rewrite withUserData_docs, filter_not_null_map_Some.
  - unfold feed_for_you. rewrite Hfind.
    eexists. split; [reflexivity |]. cbn [posts].
    now rewrite withUserData_docs, filter_not_null_map_Some.
  - intros ps Hq. unfold discover. rewrite Hq.
    eexists. split; [reflexivity |]. cbn [posts].
    now rewrite withOptionalUserData_docs, filter_not_null_map_Some.
Qed.

Lemma item_failures_are_dropped_witness :
  User.findById (db_users Sample.db) 1%N = Some Sample.viewer
  /\ (forall entries : list (option Post.t),
        map doc (filter_not_null (map (withUserData Sample.throws_on_pinned 1%N) entries))
        = filter (fun p => negb (Sample.throws_on_pinned p)) (filter_not_null entries))
  /\ (forall entries : list (option Post.t),
        map doc
          (filter_not_null
             (map (withOptionalUserData Sample.throws_on_pinned None) entries))
        = filter (fun p => negb (Sample.throws_on_pinned p)) (filter_not_null entries))
  /\ (forall ps,
        following_query Sample.db Sample.viewer (parse_or None 1) (parse_or None 10)
        = Some ps ->
        exists body,
          feed_following Sample.throws_on_pinned Sample.db 1%N None None = Json body
          /\ map doc (posts body)
             = filter (fun p => negb (Sample.throws_on_pinned p)) ps)
  /\ (exists body,
        feed_for_you Sample.throws_on_pinned Sample.reversing Sample.db Sample.now 1%N
          None None = Json body
        /\ map doc (posts body)
           = filter (fun p => negb (Sample.throws_on_pinned p))
               (shuffledPosts Sample.reversing
                  (uniquePosts
                     (algorithmPosts Sample.db Sample.now
                        (User._id Sample.viewer :: User.following Sample.viewer)
                        (parse_or None 10)))
                  (parse_or None 1) (parse_or None 10)))
  /\ (forall ps,
        discover_query Sample.db Sample.now (parse_or None 1) (parse_or None 10)
        = Some ps ->
        exists body,
          discover Sample.throws_on_pinned Sample.db Sample.now None None None
          = Json body
          /\ map doc (posts body)
             = filter (fun p => negb (Sample.throws_on_pinned p)) ps).
Proof.
  split; [reflexivity |].
  apply (item_failures_are_dropped Sample.throws_on_pinned Sample.reversing Sample.db
           Sample.now 1%N None None None Sample.viewer).
  reflexivity.
Defined.

(** A failing post on the sample data: the conversion of the pinned post
    of the followed user throws, the viewer's own post is still returned;
    a null entry is skipped. *)
Example item_failure_scenario :
  (exists body,
     feed_following Sample.throws_on_pinned Sample.db 1%N None None = Json body
     /\ map doc (posts body) = [Sample.P1])
  /\ map doc
       (filter_not_null
          (map (withUserData Sample.throws_on_pinned 1%N)
             [Some Sample.P2; None; Some Sample.P1]))
     = [Sample.P1].
Proof. split; [eexists; split; reflexivity | reflexivity]. Qed.

(** ** Likes *)

Lemma filter_other_likes (u : ObjectId) (l : list ObjectId) :
  ~ In u l -> filter (fun id => negb (equals id u)) l = l.
Proof.
  induction l as [| x t IH]; simpl; intros Hnot.
  - reflexivity.
  - destruct (equals x u) eqn:E.
    + apply equals_true in E. tauto.
    + simpl. f_equal. tauto.
Qed.

Lemma existsb_equals_In (u : ObjectId) (l : list ObjectId) :
  existsb (fun id => equals id u) l = true <-> In u l.
Proof. apply mem_In. Qed.

(** C10: liking a post by a user who is already among its likes changes
    nothing, so liking is idempotent, keeps a duplicate-free list of likes
    duplicate-free, and raises the like count by one at most; unliking
    removes every occurrence of the user and keeps the list
    duplicate-free; liking then unliking, for a user who was not among the
    likes, gives back the post as it was. *)
Theorem like_unlike_laws (p : Post.t) (u : ObjectId) :
  (In u (Post.likes p) -> Post.like p u = p)
  /\ Post.like (Post.like p u) u = Post.like p u
  /\ (NoDup (Post.likes p) -> NoDup (Post.likes (Post.like p u)))
  /\ (Post.likesCount p <= Post.likesCount (Post.like p u) <= S (Post.likesCount p))%nat
  /\ In u (Post.likes (Post.like p u))
  /\ ~ In u (Post.likes (Post.unlike p u))
  /\ (NoDup (Post.likes p) -> NoDup (Post.likes (Post.unlike p u)))
  /\ (~ In u (Post.likes p) -> Post.unlike (Post.like p u) u = p).
Proof.
  assert (Hlike : In u (Post.likes p) -> Post.like p u = p).
  { intros Hin. unfold Post.like. apply existsb_equals_In in Hin. now rewrite Hin. }
  assert (Hin_like : In u (Post.likes (Post.like p u))).
  { unfold Post.like.
    destruct (existsb (fun id => equals id u) (Post.likes p)) eqn:E; simpl.
    - now apply existsb_equals_In.
    - apply in_or_app. right. now left. }
  split; [exact Hlike |].
  split.
  { unfold Post.like at 1. apply existsb_equals_In in Hin_like.
    now rewrite Hin_like. }
  split.
  { intros Hnd. unfold Post.like.
    destruct (existsb (fun id => equals id u) (Post.likes p)) eqn:E; simpl.
    - assumption.
    - apply NoDup_rev in Hnd. rewrite <- (rev_involutive (Post.likes p ++ [u])).
      apply NoDup_rev. rewrite rev_app_distr. simpl. constructor; [| assumption].
      rewrite <- in_rev. intros Hin. apply existsb_equals_In in Hin. congruence. }
  split.
  { unfold Post.like, Post.likesCount.
    destruct (existsb (fun id => equals id u) (Post.likes p)); simpl.
    - lia.
    - rewrite length_app. simpl. lia. }
  split; [exact Hin_like |].
  split.
  { unfold Post.unlike. simpl. rewrite filter_In. intros [_ Hneq].
    rewrite negb_true_iff in Hneq. apply equals_false in Hneq. congruence. }
  split.
  { intros Hnd. unfold Post.unlike. simpl. now apply NoDup_filter. }
  intros Hnot. unfold Post.like.
  replace (existsb (fun id => equals id u) (Post.likes p)) with false.
  - clear Hlike Hin_like. unfold Post.unlike, Post.set_likes.
    destruct p as [i a c l cs act pin t]. cbn [negb Post._id Post.author Post.content
      Post.likes Post.comments Post.isActive Post.isPinned Post.createdAt] in *.
    f_equal. rewrite filter_app. simpl.
    replace (equals u u) with true by (symmetry; now apply equals_true).
    simpl. rewrite app_nil_r. now apply filter_other_likes.
  - symmetry. apply not_true_is_false. intros E.
    apply existsb_equals_In in E. contradiction.
Qed.

(** Likes on the sample data. *)
Example like_unlike_scenario :
  Post.likes (Post.like Sample.P4 1%N) = [1%N]
  /\ Post.likes (Post.like Sample.P4 2%N) = [1%N; 2%N]
  /\ Post.unlike (Post.like Sample.P4 2%N) 2%N = Sample.P4
  /\ Post.likes (Post.unlike (Post.set_likes Sample.P4 [1%N; 2%N; 1%N]) 1%N) = [2%N].
Proof. repeat split. Qed.

(** * Beyond the feeds: the stored posts and the routes that change them *)

(** ** Lookup, save and delete *)

Lemma Post_findById_some (coll : list Post.t) (id : ObjectId) (p : Post.t) :
  Post_findById coll id = Some p -> In p coll /\ Post._id p = id.
Proof.
  unfold Post_findById. intros H. apply find_some in H.
  destruct H as [Hin Heq]. apply equals_true in Heq. now split.
Qed.

Lemma equals_refl (a : ObjectId) : equals a a = true.
Proof. now apply equals_true. Qed.

Lemma Post_findById_none (coll : list Post.t) (id : ObjectId) :
  Post_findById coll id = None <-> ~ In id (map Post._id coll).
Proof.
  unfold Post_findById. induction coll as [| q t IH]; simpl.
  - tauto.
  - destruct (equals (Post._id q) id) eqn:E.
    + apply equals_true in E. split; [discriminate | tauto].
    + apply equals_false in E. rewrite IH. tauto.
Qed.

Lemma save_ids (doc : Post.t) (coll : list Post.t) :
  map Post._id (save doc coll) = map Post._id coll.
Proof.
  induction coll as [| q t IH]; simpl; [reflexivity |].
  destruct (equals (Post._id q) (Post._id doc)) eqn:E; simpl.
  - apply equals_true in E. now rewrite E.
  - now rewrite IH.
Qed.

Lemma findById_save_same (doc : Post.t) (coll : list Post.t) :
  In (Post._id doc) (map Post._id coll) ->
  Post_findById (save doc coll) (Post._id doc) = Some doc.
Proof.
  unfold Post_findById. induction coll as [| q t IH]; simpl; intros Hin.
  - contradiction.
  - destruct (equals (Post._id q) (Post._id doc)) eqn:E; simpl.
    + now rewrite equals_refl.
    + rewrite E. apply IH. destruct Hin as [Hq | Hin]; [| assumption].
      apply equals_false in E. congruence.
Qed.

Lemma findById_save_other (doc : Post.t) (coll : list Post.t) (id : ObjectId) :
  id <> Post._id doc ->
  Post_findById (save doc coll) id = Post_findById coll id.
Proof.
  unfold Post_findById. intros Hne. induction coll as [| q t IH]; simpl.
  - reflexivity.
  - destruct (equals (Post._id q) (Post._id doc)) eqn:E; simpl.
    + apply equals_true in E.
      replace (equals (Post._id doc) id) with false
        by (symmetry; apply equals_false; congruence).
      replace (equals (Post._id q) id) with false
        by (symmetry; apply equals_false; congruence).
      reflexivity.
    + destruct (equals (Post._id q) id); [reflexivity | exact IH].
Qed.



Lemma save_In (doc : Post.t) (coll : list Post.t) (q : Post.t) :
  In q (save doc coll) -> q = doc \/ (In q coll /\ Post._id q <> Post._id doc) \/
                          (In q coll /\ In (Post._id doc) (map Post._id coll)
                           /\ ~ NoDup (map Post._id coll)).
Proof.
  induction coll as [| c t IH]; simpl.
  - contradiction.
  - destruct (equals (Post._id c) (Post._id doc)) eqn:E.
    + intros [<- | Hin]; [now left |].
      apply equals_true in E.
      destruct (N.eq_dec (Post._id q) (Post._id doc)) as [Heq | Hne].
      * right. right. split; [now right |]. split; [now left |].
        intros Hnd. inversion Hnd as [| ? ? Hnot _]; subst. apply Hnot.
        rewrite E, <- Heq. now apply in_map.
      * right. left. split; [now right | assumption].
    + apply equals_false in E. intros [<- | Hin].
      * right. left. split; [now left | assumption].
      * destruct (IH Hin) as [-> | [[Hq Hne] | (Hq & Hd & Hnd)]].
        -- now left.
        -- right. left. split; [now right | assumption].
        -- right. right. split; [now right |]. split; [now right |].
           intros Hnd'. inversion Hnd'; subst. contradiction.
Qed.

Lemma save_In_unique (doc : Post.t) (coll : list Post.t) (q : Post.t) :
  NoDup (map Post._id coll) -> In q (save doc coll) ->
  Post._id q = Post._id doc -> q = doc.
Proof.
  intros Hnd Hin Hid.
  destruct (save_In _ _ _ Hin) as [-> | [[_ Hne] | (_ & _ & Hdup)]];
    [reflexivity | contradiction | contradiction].
Qed.


Lemma delete_removes_id (id : ObjectId) (coll : list Post.t) :
  NoDup (map Post._id coll) -> ~ In id (map Post._id (findByIdAndDelete id coll)).
Proof.
  induction coll as [| q t IH]; simpl; intros Hnd.
  - tauto.
  - inversion Hnd as [| ? ? Hnot Hnd']; subst.
    destruct (equals (Post._id q) id) eqn:E.
    + apply equals_true in E. now rewrite <- E.
    + apply equals_false in E. simpl. intros [H | H]; [contradiction |].
      now apply IH.
Qed.

(** ** What the pages of the feeds are made of *)

Lemma feed_following_In (throws : Post.t -> bool) (db : DB) (userId : ObjectId)
  (query_page query_limit : option Z) (body : FeedBody) (o : PostObj) :
  feed_following throws db userId query_page query_limit = Json body ->
  In o (posts body) ->
  In (doc o) (db_posts db)
  /\ isLikedByUser o = Some (Post.isLikedBy (doc o) (Some userId)).
Proof.
  unfold feed_following. intros Hfeed Hin.
  destruct (User.findById _ _) as [user |] eqn:Hfind; [| discriminate].
  destruct (following_query db user _ _) as [ps |] eqn:Eq; [| discriminate].
  injection Hfeed as <-. cbn [posts] in Hin.
  apply withUserData_In in Hin. destruct Hin as [Hin Hflag].
  destruct (findById_some _ _ _ Hfind) as [_ Hid]. rewrite Hid in Hflag.
  split; [| assumption].
  destruct (following_query_subseq _ _ _ _ _ Eq) as [f [Hsub _]].
  apply (subseq_In _ _ Hsub) in Hin. now apply sort_In, filter_In in Hin.
Qed.

Lemma feed_for_you_In (throws : Post.t -> bool) (random_sort : list Post.t -> list Post.t)
  (db : DB) (now : Z) (userId : ObjectId) (query_page query_limit : option Z)
  (body : FeedBody) (o : PostObj) :
  (forall l, Permutation l (random_sort l)) ->
  feed_for_you throws random_sort db now userId query_page query_limit = Json body ->
  In o (posts body) ->
  In (doc o) (db_posts db)
  /\ isLikedByUser o = Some (Post.isLikedBy (doc o) (Some userId)).
Proof.
  unfold feed_for_you. intros Hperm Hfeed Hin.
  destruct (User.findById _ _) as [user |] eqn:Hfind; [| discriminate].
  injection Hfeed as <-. cbn [posts] in Hin.
  apply withUserData_In in Hin. destruct Hin as [Hin Hflag].
  destruct (findById_some _ _ _ Hfind) as [_ Hid]. rewrite Hid in Hflag.
  split; [| assumption].
  apply (shuffledPosts_candidate _ Hperm) in Hin. apply Hin.
Qed.

Lemma discover_In (throws : Post.t -> bool) (db : DB) (now : Z)
  (req_user : option ObjectId) (query_page query_limit : option Z)
  (body : FeedBody) (o : PostObj) :
  discover throws db now req_user query_page query_limit = Json body ->
  In o (posts body) ->
  In (doc o) (db_posts db)
  /\ isLikedByUser o =
     match req_user with
     | Some userId => Some (Post.isLikedBy (doc o) (Some userId))
     | None => None
     end.
Proof.
  unfold discover. intros Hfeed Hin.
  destruct (discover_query db now _ _) as [ps |] eqn:Eq; [| discriminate].
  injection Hfeed as <-. cbn [posts] in Hin.
  apply withOptionalUserData_In in Hin. destruct Hin as [Hin Hflag].
  split; [| assumption].
  now apply (discover_query_member _ _ _ _ _ _ Eq) in Hin.
Qed.

(** ** Likes through the router *)

Lemma isLikedBy_like (p : Post.t) (u v : ObjectId) :
  Post.isLikedBy (Post.like p u) (Some v) =
  Post.isLikedBy p (Some v) || equals u v.
Proof.
  unfold Post.like. simpl.
  destruct (existsb (fun id => equals id u) (Post.likes p)) eqn:E; simpl.
  - destruct (equals u v) eqn:Euv; [| now rewrite orb_false_r].
    apply equals_true in Euv. subst v. now rewrite E.
  - rewrite existsb_app. simpl. now rewrite orb_false_r.
Qed.

Lemma isLikedBy_unlike (p : Post.t) (u v : ObjectId) :
  Post.isLikedBy (Post.unlike p u) (Some v) =
  Post.isLikedBy p (Some v) && negb (equals u v).
Proof.
  unfold Post.unlike. simpl.
  induction (Post.likes p) as [| x t IH]; simpl; [reflexivity |].
  destruct (equals x u) eqn:Exu; simpl.
  - apply equals_true in Exu. subst x. rewrite IH.
    destruct (equals u v); simpl; [now rewrite andb_false_r | reflexivity].
  - rewrite IH. destruct (equals x v) eqn:Exv; simpl; [| reflexivity].
    apply equals_true in Exv. subst x.
    replace (equals u v) with false; [reflexivity |].
    symmetry. apply equals_false. apply equals_false in Exu. congruence.
Qed.


Lemma toggled_id (p : Post.t) (u : ObjectId) : Post._id (toggled p u) = Post._id p.
Proof.
  unfold toggled. destruct (Post.isLikedBy p (Some u)); [reflexivity |].
  unfold Post.like. now destruct (negb _).
Qed.


Lemma isLikedBy_toggled (p : Post.t) (u v : ObjectId) :
  Post.isLikedBy (toggled p u) (Some v) =
  if equals u v then negb (Post.isLikedBy p (Some u)) else Post.isLikedBy p (Some v).
Proof.
  unfold toggled. destruct (Post.isLikedBy p (Some u)) eqn:E.
  - rewrite isLikedBy_unlike. destruct (equals u v); cbn [negb].
    + apply andb_false_r.
    + apply andb_true_r.
  - rewrite isLikedBy_like. destruct (equals u v); cbn [negb].
    + apply orb_true_r.
    + apply orb_false_r.
Qed.


(** The shape of a successful like toggle. *)
Lemma like_route_json (db db' : DB) (userId id : ObjectId) (isLiked : bool) (n : nat) :
  like_route db userId (Some id) = (db', LikeJson isLiked n) ->
  exists post,
    Post_findById (db_posts db) id = Some post
    /\ Post._id post = id
    /\ In post (db_posts db)
    /\ Post.isActive post = true
    /\ Post.isLikedBy post (Some userId) = negb isLiked
    /\ n = Post.likesCount (toggled post userId)
    /\ db' = mkDB (save (toggled post userId) (db_posts db)) (db_users db)
    /\ Post_findById (db_posts db') id = Some (toggled post userId).
Proof.
  unfold like_route. intros H.
  destruct (Post_findById (db_posts db) id) as [post |] eqn:Hfind; [| discriminate].
  destruct (Post.isActive post) eqn:Hact; cbn [negb] in H; [| discriminate].
  fold (toggled post userId) in H.
  destruct (Post_findById_some _ _ _ Hfind) as [Hin Hid].
  exists post. injection H as <- Hb <-.
  repeat split; try assumption; try reflexivity.
  - rewrite <- Hb. symmetry. apply negb_involutive.
  - cbn [db_posts]. rewrite <- Hid, <- (toggled_id post userId).
    apply findById_save_same. rewrite toggled_id. now apply in_map.
Qed.



(** X2: the like route leaves the users, the identifiers of the stored
    posts and every post other than the addressed one as they are, and
    changes nothing at all when it answers 400 or 404. *)
Theorem like_route_frame (db db' : DB) (userId : ObjectId)
  (params_id : option ObjectId) (r : LikeResponse) :
  like_route db userId params_id = (db', r) ->
  db_users db' = db_users db
  /\ map Post._id (db_posts db') = map Post._id (db_posts db)
  /\ (forall id', params_id <> Some id' ->
        Post_findById (db_posts db') id' = Post_findById (db_posts db) id')
  /\ (r = LikeStatus400 \/ r = LikeStatus404 -> db' = db).
Proof.
  unfold like_route. intros H.
  destruct params_id as [id |]; [| injection H as <- <-; auto 6].
  destruct (Post_findById (db_posts db) id) as [post |] eqn:Hfind;
    [| injection H as <- <-; auto 6].
  destruct (Post.isActive post); cbn [negb] in H; [| injection H as <- <-; auto 6].
  fold (toggled post userId) in H.
  injection H as <- <-. cbn [db_users db_posts].
  destruct (Post_findById_some _ _ _ Hfind) as [_ Hid].
  split; [reflexivity |]. split; [apply save_ids |]. split.
  - intros id' Hne. apply findById_save_other. rewrite toggled_id. congruence.
  - intros [Hr | Hr]; discriminate Hr.
Qed.

Lemma like_route_frame_witness :
  like_route Sample.db 2%N (Some 15%N) = (Sample.db, LikeStatus404)
  /\ db_users Sample.db = db_users Sample.db
  /\ map Post._id (db_posts Sample.db) = map Post._id (db_posts Sample.db)
  /\ (forall id', Some 15%N <> Some id' ->
        Post_findById (db_posts Sample.db) id' = Post_findById (db_posts Sample.db) id')
  /\ (LikeStatus404 = LikeStatus400 \/ LikeStatus404 = LikeStatus404 ->
      Sample.db = Sample.db).
Proof.
  split; [reflexivity |].
  apply (like_route_frame Sample.db Sample.db 2%N (Some 15%N) LikeStatus404).
  reflexivity.
Defined.



(** ** The routes seen from the feeds *)

Lemma withUserData_counts (throws : Post.t -> bool) (userId : ObjectId)
  (l : list Post.t) (o : PostObj) :
  In o (filter_not_null (map (withUserData throws userId) (map Some l))) ->
  likesCount o = Post.likesCount (doc o)
  /\ commentsCount o = Post.commentsCount (doc o).
Proof.
  rewrite filter_not_null_In, map_map, in_map_iff.
  intros [p [Hp _]]. simpl in Hp. unfold toObject in Hp.
  destruct (throws p); [discriminate |]. injection Hp as <-. now split.
Qed.

Lemma withOptionalUserData_counts (throws : Post.t -> bool) (req_user : option ObjectId)
  (l : list Post.t) (o : PostObj) :
  In o (filter_not_null (map (withOptionalUserData throws req_user) (map Some l))) ->
  likesCount o = Post.likesCount (doc o)
  /\ commentsCount o = Post.commentsCount (doc o).
Proof.
  rewrite filter_not_null_In, map_map, in_map_iff.
  intros [p [Hp _]]. simpl in Hp. unfold toObject in Hp.
  destruct (throws p); [discriminate |].
  destruct req_user; injection Hp as <-; now split.
Qed.

Lemma page_for_object (throws : Post.t -> bool) (random_sort : list Post.t -> list Post.t)
  (db : DB) (now : Z) (userId : ObjectId) (query_page query_limit : option Z)
  (body : FeedBody) (o : PostObj) :
  (forall l, Permutation l (random_sort l)) ->
  page_for throws random_sort db now userId query_page query_limit body ->
  In o (posts body) ->
  In (doc o) (db_posts db)
  /\ Post.isActive (doc o) = true
  /\ isLikedByUser o = Some (Post.isLikedBy (doc o) (Some userId))
  /\ likesCount o = Post.likesCount (doc o)
  /\ commentsCount o = Post.commentsCount (doc o).
Proof.
  intros Hperm [Hfeed | [Hfeed | Hfeed]] Hin.
  - destruct (feed_following_In _ _ _ _ _ _ _ Hfeed Hin) as [Hdb Hflag].
    unfold feed_following in Hfeed.
    destruct (User.findById _ _) as [user |]; [| discriminate].
    destruct (following_query db user _ _) as [ps |] eqn:Eq; [| discriminate].
    injection Hfeed as <-. cbn [posts] in Hin.
    destruct (withUserData_counts _ _ _ _ Hin) as [Hl Hc].
    repeat split; try assumption.
    apply withUserData_In in Hin. destruct Hin as [Hin _].
    destruct (following_query_subseq _ _ _ _ _ Eq) as [f [Hsub Hf]].
    apply (subseq_In _ _ Hsub) in Hin. apply sort_In, filter_In in Hin.
    destruct Hin as [_ Hfp]. now apply Hf in Hfp.
  - destruct (feed_for_you_In _ _ _ _ _ _ _ _ _ Hperm Hfeed Hin) as [Hdb Hflag].
    unfold feed_for_you in Hfeed.
    destruct (User.findById _ _) as [user |]; [| discriminate].
    injection Hfeed as <-. cbn [posts] in Hin.
    destruct (withUserData_counts _ _ _ _ Hin) as [Hl Hc].
    repeat split; try assumption.
    apply withUserData_In in Hin. destruct Hin as [Hin _].
    apply (shuffledPosts_candidate _ Hperm) in Hin. apply Hin.
  - destruct (discover_In _ _ _ _ _ _ _ _ Hfeed Hin) as [Hdb Hflag].
    unfold discover in Hfeed.
    destruct (discover_query db now _ _) as [ps |] eqn:Eq; [| discriminate].
    injection Hfeed as <-. cbn [posts] in Hin.
    destruct (withOptionalUserData_counts _ _ _ _ Hin) as [Hl Hc].
    repeat split; try assumption.
    apply withOptionalUserData_In in Hin. destruct Hin as [Hin _].
    apply (discover_query_member _ _ _ _ _ _ Eq) in Hin.
    destruct Hin as [_ Hf]. apply discover_filter_spec in Hf. apply Hf.
Qed.

Lemma Sample_ids_unique : NoDup (map Post._id (db_posts Sample.db)).
Proof.
  simpl.
  repeat (constructor;
          [simpl; intros H; repeat (destruct H as [H | H]; [discriminate H |]); exact H |]).
  constructor.
Qed.

(** X4: once a like toggle has answered, every page that one of the three
    feeds computes for the same viewer on the new database shows the
    toggled post, if it shows it, with the like status and the number of
    likes of that answer; identifiers of stored posts are unique. *)
Theorem like_route_then_feeds
  (throws : Post.t -> bool) (random_sort : list Post.t -> list Post.t)
  (db db' : DB) (now : Z) (userId id : ObjectId) (isLiked : bool) (n : nat)
  (query_page query_limit : option Z) (body : FeedBody) (o : PostObj) :
  (forall l, Permutation l (random_sort l)) ->
  NoDup (map Post._id (db_posts db)) ->
  like_route db userId (Some id) = (db', LikeJson isLiked n) ->
  page_for throws random_sort db' now userId query_page query_limit body ->
  In o (posts body) ->
  Post._id (doc o) = id ->
  isLikedByUser o = Some isLiked /\ likesCount o = n.
Proof.
  intros Hperm Hnd Hlike Hpage Hin Hid.
  destruct (like_route_json _ _ _ _ _ _ Hlike)
    as (post & Hf & Hpid & Hpin & Hact & Hwas & Hn & Hdb & Hf').
  destruct (page_for_object _ _ _ _ _ _ _ _ _ Hperm Hpage Hin)
    as (Hstored & _ & Hflag & Hcount & _).
  assert (Hdoc : doc o = toggled post userId).
  { rewrite Hdb in Hstored. cbn [db_posts] in Hstored.
    apply (save_In_unique _ _ _ Hnd Hstored). rewrite toggled_id. congruence. }
  rewrite Hflag, Hcount, Hdoc, Hn. split; [| reflexivity].
  f_equal. rewrite isLikedBy_toggled, equals_refl, Hwas. apply negb_involutive.
Qed.

Lemma like_route_then_feeds_witness :
  (forall l, Permutation l (Sample.reversing l))
  /\ NoDup (map Post._id (db_posts Sample.db))
  /\ forall body o,
       page_for Sample.never_throws Sample.reversing
         (mkDB (save (Post.like Sample.P1 2%N) (db_posts Sample.db)) (db_users Sample.db))
         Sample.now 2%N None None body ->
       In o (posts body) ->
       Post._id (doc o) = 11%N ->
       isLikedByUser o = Some true /\ likesCount o = 1%nat.
Proof.
  assert (Hperm : forall l, Permutation l (Sample.reversing l))
    by (intros l; apply Permutation_rev).
  assert (Hnd := Sample_ids_unique).
  split; [exact Hperm |]. split; [exact Hnd |].
  intros body o.
  apply (like_route_then_feeds Sample.never_throws Sample.reversing Sample.db _
           Sample.now 2%N 11%N true 1 None None body o Hperm Hnd).
  reflexivity.
Defined.

(** ** Posts that are switched off *)

(** X5: a stored post whose active flag is false is frozen: liking,
    commenting and updating it answer 404 and leave the database as it
    is, and reading it answers 404; its author can still delete it, after
    which, identifiers being unique, it is no longer found. *)
Theorem inactive_post_is_frozen
  (throws : Post.t -> bool) (db : DB) (userId : ObjectId) (req_user : option ObjectId)
  (id : ObjectId) (post : Post.t) (text content : string) :
  Post_findById (db_posts db) id = Some post ->
  Post.isActive post = false ->
  like_route db userId (Some id) = (db, LikeStatus404)
  /\ comment_route db userId (Some (id, text)) = (db, CommentStatus404)
  /\ update_route throws db userId (Some (id, content)) = (db, UpdateStatus404)
  /\ get_route throws db req_user (Some id) = GetStatus404
  /\ (Post.author post = userId ->
      NoDup (map Post._id (db_posts db)) ->
      exists db',
        delete_route db userId (Some id) = (db', DeleteJson)
        /\ Post_findById (db_posts db') id = None).
Proof.
  intros Hf Hact.
  unfold like_route, comment_route, update_route, get_route, delete_route.
  rewrite Hf, Hact. cbn [negb].
  repeat (split; [reflexivity |]).
  intros Hauthor Hnd. rewrite Hauthor, equals_refl. cbn [negb].
  eexists. split; [reflexivity |]. cbn [db_posts].
  apply Post_findById_none. now apply delete_removes_id.
Qed.

Lemma inactive_post_is_frozen_witness :
  (Post_findById (db_posts Sample.db) 15%N = Some Sample.P5
   /\ Post.isActive Sample.P5 = false)
  /\ like_route Sample.db 1%N (Some 15%N) = (Sample.db, LikeStatus404)
  /\ comment_route Sample.db 1%N (Some (15%N, "hi"%string))
     = (Sample.db, CommentStatus404)
  /\ update_route Sample.never_throws Sample.db 1%N (Some (15%N, "new"%string))
     = (Sample.db, UpdateStatus404)
  /\ get_route Sample.never_throws Sample.db None (Some 15%N) = GetStatus404
  /\ (Post.author Sample.P5 = 1%N ->
      NoDup (map Post._id (db_posts Sample.db)) ->
      exists db',
        delete_route Sample.db 1%N (Some 15%N) = (db', DeleteJson)
        /\ Post_findById (db_posts db') 15%N = None).
Proof.
  split; [split; reflexivity |].
  apply (inactive_post_is_frozen Sample.never_throws Sample.db 1%N None 15%N
           Sample.P5 "hi"%string "new"%string); reflexivity.
Defined.

(** ** Comments *)



(** ** The statics of the Post model *)

(** X7: called with the identity and the following list of a user, the
    static [getFeedPosts] returns what the query of the /feed/following
    route returns for that user, page and limit; without page and limit it
    is the first page of 10. *)
Theorem getFeedPosts_is_following_query (db : DB) (user : User.t) (page limit : Z) :
  getFeedPosts (db_posts db) (User._id user) (Some (User.following user))
    (Some page) (Some limit)
  = following_query db user page limit
  /\ getFeedPosts (db_posts db) (User._id user) (Some (User.following user)) None None
     = following_query db user 1 10
  /\ getFeedPosts (db_posts db) (User._id user) None (Some page) (Some limit)
     = getFeedPosts (db_posts db) (User._id user) (Some []) (Some page) (Some limit).
Proof.
  assert (H : forall pg lm,
             getFeedPosts (db_posts db) (User._id user) (Some (User.following user))
               (Some pg) (Some lm)
             = following_query db user pg lm).
  { intros pg lm. unfold getFeedPosts, following_query. cbn [default_to].
    destruct (User.following user) as [| f0 fs]; cbn [length Nat.ltb Nat.leb Nat.eqb];
      do 3 f_equal; apply filter_ext; intros p; apply andb_comm. }
  split; [apply H |]. split; [apply (H 1 10) |]. reflexivity.
Qed.

Lemma createdAt_desc_total (a b : Post.t) :
  createdAt_desc a b = true \/ createdAt_desc b a = true.
Proof. unfold createdAt_desc. rewrite !Z.leb_le. lia. Qed.

Lemma createdAt_desc_trans (a b c : Post.t) :
  createdAt_desc a b = true -> createdAt_desc b c = true -> createdAt_desc a c = true.
Proof. unfold createdAt_desc. rewrite !Z.leb_le. lia. Qed.

(** X8: every post returned by the static [getPopularPosts] is stored and
    active, has two interactions or more, is not written by the excluded
    user when one is given, and passes the filter of the discover feed at
    any time; the result is ordered newest first. *)
Theorem getPopularPosts_sound (coll : list Post.t) (excludeUserId : option ObjectId)
  (page limit : option Z) (ps : list Post.t) :
  getPopularPosts coll excludeUserId page limit = Some ps ->
  (forall p, In p ps ->
     In p coll
     /\ Post.isActive p = true
     /\ 2 <= interactions p
     /\ (forall e, excludeUserId = Some e -> Post.author p <> e)
     /\ (forall now, discover_filter now p = true))
  /\ StronglySorted (fun a b => Post.createdAt b <= Post.createdAt a) ps.
Proof.
  unfold getPopularPosts. intros H.
  destruct (Query.skip _ _) as [sk |] eqn:Es; [| discriminate].
  injection H as <-.
  assert (Hsub := subseq_trans _ _ _ (limit_subseq (default_to limit 10) sk)
                    (skip_subseq _ _ _ Es)).
  split.
  - intros p Hin. apply (subseq_In _ _ Hsub) in Hin.
    apply sort_In, filter_In in Hin. destruct Hin as [Hcoll Hf].
    assert (Hbase : Post.isActive p = true /\ 2 <= interactions p
                    /\ (forall e, excludeUserId = Some e -> Post.author p <> e)).
    { destruct excludeUserId as [e |].
      - rewrite !andb_true_iff, negb_true_iff, Z.leb_le in Hf.
        destruct Hf as [[Ha Hi] He]. apply equals_false in He.
        repeat split; try assumption. intros e' He'. congruence.
      - rewrite andb_true_iff, Z.leb_le in Hf. destruct Hf as [Ha Hi].
        repeat split; try assumption. discriminate. }
    destruct Hbase as (Ha & Hi & He). repeat split; try assumption.
    intros now. apply discover_filter_spec. split; [assumption | left; lia].
  - eapply subseq_StronglySorted; [exact Hsub |].
    eapply StronglySorted_weaken; [| apply sort_sorted].
    + intros a b Hab. unfold createdAt_desc in Hab. now apply Z.leb_le in Hab.
    + apply createdAt_desc_total.
    + apply createdAt_desc_trans.
Qed.

Lemma getPopularPosts_sound_witness :
  getPopularPosts
    [Sample.P4; Post.like Sample.P2 3%N; Sample.P1] (Some 1%N) None None
  = Some [Post.like Sample.P2 3%N]
  /\ (forall p, In p [Post.like Sample.P2 3%N] ->
        In p [Sample.P4; Post.like Sample.P2 3%N; Sample.P1]
        /\ Post.isActive p = true
        /\ 2 <= interactions p
        /\ (forall e, Some 1%N = Some e -> Post.author p <> e)
        /\ (forall now, discover_filter now p = true))
  /\ StronglySorted (fun a b => Post.createdAt b <= Post.createdAt a)
       [Post.like Sample.P2 3%N].
Proof.
  split; [reflexivity |].
  apply (getPopularPosts_sound [Sample.P4; Post.like Sample.P2 3%N; Sample.P1]
           (Some 1%N) None None).
  reflexivity.
Defined.

(** ** Reading, updating and deleting a post *)




(** X10: for a stored, active post that converts, GET /:id answers an
    anonymous request with the post object without the fields
    [isLikedByUser] and [canEdit]; it answers an authenticated request
    with both fields when the account of the author exists, and with 500
    when it does not. *)
Theorem get_route_views
  (throws : Post.t -> bool) (db : DB) (id : ObjectId) (post : Post.t) :
  Post_findById (db_posts db) id = Some post ->
  Post.isActive post = true ->
  throws post = false ->
  (exists v,
     get_route throws db None (Some id) = GetJson v
     /\ doc (view v) = post
     /\ isLikedByUser (view v) = None
     /\ canEdit v = None)
  /\ (forall userId,
        User.findById (db_users db) (Post.author post) = None ->
        get_route throws db (Some userId) (Some id) = GetStatus500)
  /\ (forall userId author,
        User.findById (db_users db) (Post.author post) = Some author ->
        exists v,
          get_route throws db (Some userId) (Some id) = GetJson v
          /\ doc (view v) = post
          /\ isLikedByUser (view v) = Some (Post.isLikedBy post (Some userId))
          /\ canEdit v = Some (equals (Post.author post) userId)).
Proof.
  intros Hf Hact Hconv. unfold get_route, toObject.
  rewrite Hf, Hact, Hconv. cbn [negb].
  split; [eexists; repeat split |].
  split.
  - intros userId Ha. now rewrite Ha.
  - intros userId author Ha. rewrite Ha.
    destruct (findById_some _ _ _ Ha) as [_ Haid]. rewrite Haid.
    eexists. repeat split.
Qed.

Lemma get_route_views_witness :
  (Post_findById [Sample.P1] 11%N = Some Sample.P1
   /\ Post.isActive Sample.P1 = true
   /\ Sample.never_throws Sample.P1 = false)
  /\ (exists v,
        get_route Sample.never_throws (mkDB [Sample.P1] []) None (Some 11%N) = GetJson v
        /\ doc (view v) = Sample.P1
        /\ isLikedByUser (view v) = None
        /\ canEdit v = None)
  /\ (forall userId,
        User.findById [] (Post.author Sample.P1) = None ->
        get_route Sample.never_throws (mkDB [Sample.P1] []) (Some userId) (Some 11%N)
        = GetStatus500)
  /\ (forall userId author,
        User.findById [] (Post.author Sample.P1) = Some author ->
        exists v,
          get_route Sample.never_throws (mkDB [Sample.P1] []) (Some userId) (Some 11%N)
          = GetJson v
          /\ doc (view v) = Sample.P1
          /\ isLikedByUser (view v) = Some (Post.isLikedBy Sample.P1 (Some userId))
          /\ canEdit v = Some (equals (Post.author Sample.P1) userId)).
Proof.
  split; [repeat split |].
  apply (get_route_views Sample.never_throws (mkDB [Sample.P1] []) 11%N Sample.P1);
    reflexivity.
Defined.





(** * The follow graph *)

Lemma Account_findById_user (coll : list Account.t) (id : ObjectId) :
  User.findById (map Account.user coll) id
  = option_map Account.user (Account_findById coll id).
Proof.
  unfold User.findById, Account_findById.
  induction coll as [| a t IH]; simpl; [reflexivity |].
  unfold Account._id at 1. destruct (equals (User._id (Account.user a)) id); auto.
Qed.

Lemma findById_save_account (doc : Account.t) (coll : list Account.t) (id : ObjectId) :
  Account_findById (save_account doc coll) id =
  if equals (Account._id doc) id
  then match Account_findById coll id with
       | Some _ => Some doc
       | None => None
       end
  else Account_findById coll id.
Proof.
  unfold Account_findById. induction coll as [| a t IH]; simpl.
  - now destruct (equals (Account._id doc) id).
  - destruct (equals (Account._id a) (Account._id doc)) eqn:Ead; simpl.
    + apply equals_true in Ead. rewrite Ead.
      destruct (equals (Account._id doc) id) eqn:Edi; simpl; now rewrite ?Edi.
    + destruct (equals (Account._id a) id) eqn:Eai.
      * apply equals_true in Eai. subst id. apply equals_false in Ead.
        replace (equals (Account._id doc) (Account._id a)) with false; [reflexivity |].
        symmetry. apply equals_false. congruence.
      * exact IH.
Qed.

Lemma findById_findByIdAndUpdate (target : ObjectId) (update : Account.t -> Account.t)
  (coll : list Account.t) (id : ObjectId) :
  (forall a, Account._id (update a) = Account._id a) ->
  Account_findById (findByIdAndUpdate target update coll) id =
  if equals target id
  then option_map update (Account_findById coll id)
  else Account_findById coll id.
Proof.
  intros Hkeep. unfold Account_findById.
  induction coll as [| a t IH]; simpl.
  - now destruct (equals target id).
  - destruct (equals (Account._id a) target) eqn:Eat; simpl.
    + apply equals_true in Eat. rewrite Hkeep, Eat.
      destruct (equals target id); reflexivity.
    + destruct (equals (Account._id a) id) eqn:Eai.
      * apply equals_true in Eai. subst id. apply equals_false in Eat.
        replace (equals target (Account._id a)) with false; [reflexivity |].
        symmetry. apply equals_false. congruence.
      * exact IH.
Qed.

Lemma mem_app_last (x y : ObjectId) (l : list ObjectId) :
  mem x (l ++ [y]) = mem x l || equals y x.
Proof. unfold mem. rewrite existsb_app. simpl. now rewrite orb_false_r. Qed.

Lemma mem_pull (x y : ObjectId) (l : list ObjectId) :
  mem x (pull y l) = mem x l && negb (equals y x).
Proof.
  unfold mem, pull. induction l as [| z t IH]; simpl; [reflexivity |].
  destruct (equals z y) eqn:Ezy; simpl.
  - apply equals_true in Ezy. subst z. rewrite IH.
    destruct (equals y x); simpl; [now rewrite andb_false_r | reflexivity].
  - rewrite IH. destruct (equals z x) eqn:Ezx; simpl; [| reflexivity].
    apply equals_true in Ezx. subst z.
    replace (equals y x) with false; [reflexivity |].
    symmetry. apply equals_false. apply equals_false in Ezy. congruence.
Qed.

Lemma mem_addToSet (x y : ObjectId) (l : list ObjectId) :
  mem x (addToSet y l) = mem x l || equals y x.
Proof.
  unfold addToSet. destruct (mem y l) eqn:E.
  - destruct (equals y x) eqn:Eyx; [| now rewrite orb_false_r].
    apply equals_true in Eyx. subst y. now rewrite E.
  - apply mem_app_last.
Qed.

Lemma pull_fresh (x : ObjectId) (l : list ObjectId) :
  mem x l = false -> pull x (l ++ [x]) = l.
Proof.
  intros Hfresh. unfold pull. rewrite filter_app. simpl. rewrite equals_refl. simpl.
  rewrite app_nil_r. apply filter_other_likes. now apply mem_not_In.
Qed.

(** The stored user [this] after [follow] or [unfollow], whose second
    step may add or remove [this] in its own followers. *)
Lemma follow_this (coll : list Account.t) (this : Account.t) (userId : ObjectId) :
  Account_findById coll (Account._id this) = Some this ->
  mem userId (Account.following this) = false ->
  exists fs,
    Account_findById (follow coll this userId) (Account._id this)
    = Some (Account.set_followers
              (Account.set_following this (Account.following this ++ [userId])) fs).
Proof.
  intros Hstored Hnot. unfold follow. rewrite Hnot. cbn [negb].
  rewrite findById_findByIdAndUpdate by reflexivity.
  rewrite findById_save_account.
  change (Account._id (Account.set_following this (Account.following this ++ [userId])))
    with (Account._id this).
  rewrite equals_refl, Hstored.
  destruct (equals userId (Account._id this)); eexists; reflexivity.
Qed.

Lemma unfollow_this (coll : list Account.t) (this : Account.t) (userId : ObjectId) :
  Account_findById coll (Account._id this) = Some this ->
  exists fs,
    Account_findById (unfollow coll this userId) (Account._id this)
    = Some (Account.set_followers
              (Account.set_following this (pull userId (Account.following this))) fs).
Proof.
  intros Hstored. unfold unfollow.
  rewrite findById_findByIdAndUpdate by reflexivity.
  rewrite findById_save_account.
  change (Account._id (Account.set_following this (pull userId (Account.following this))))
    with (Account._id this).
  rewrite equals_refl, Hstored.
  destruct (equals userId (Account._id this)); eexists; reflexivity.
Qed.

(** X13: [follow] on a stored user who already follows the target changes
    nothing; otherwise the stored user then follows the target, once, the
    other follow relations of the user are kept, the target, if stored,
    has the user among its followers, the other users are untouched, and a
    second [follow] changes nothing. *)
Theorem follow_adds_edge (coll : list Account.t) (this : Account.t) (userId : ObjectId) :
  Account_findById coll (Account._id this) = Some this ->
  (isFollowing this userId = true -> follow coll this userId = coll)
  /\ (isFollowing this userId = false ->
      exists this',
        Account_findById (follow coll this userId) (Account._id this) = Some this'
        /\ Account.following this' = Account.following this ++ [userId]
        /\ isFollowing this' userId = true
        /\ (forall v, v <> userId -> isFollowing this' v = isFollowing this v)
        /\ (NoDup (Account.following this) -> NoDup (Account.following this'))
        /\ follow (follow coll this userId) this' userId = follow coll this userId
        /\ (forall target,
              Account_findById coll userId = Some target ->
              exists target',
                Account_findById (follow coll this userId) userId = Some target'
                /\ mem (Account._id this) (Account.followers target') = true
                /\ (forall v, v <> Account._id this ->
                      mem v (Account.followers target')
                      = mem v (Account.followers target)))
        /\ (forall id, id <> Account._id this -> id <> userId ->
              Account_findById (follow coll this userId) id
              = Account_findById coll id)).
Proof.
  intros Hstored. split.
  { unfold isFollowing, follow. now intros ->. }
  unfold isFollowing. intros Hnot.
  destruct (follow_this coll this userId Hstored Hnot) as [fs Hthis'].
  eexists. split; [exact Hthis' |].
  split; [reflexivity |].
  assert (Hnow : mem userId (Account.following this ++ [userId]) = true).
  { rewrite mem_app_last, equals_refl. apply orb_true_r. }
  split; [exact Hnow |].
  split.
  { intros v Hv. unfold isFollowing. cbn. rewrite mem_app_last.
    replace (equals userId v) with false; [apply orb_false_r |].
    symmetry. apply equals_false. congruence. }
  split.
  { cbn. intros Hnd. apply NoDup_rev in Hnd.
    rewrite <- (rev_involutive (Account.following this ++ [userId])).
    apply NoDup_rev. rewrite rev_app_distr. simpl. constructor; [| assumption].
    rewrite <- in_rev. now apply mem_not_In. }
  split.
  { unfold follow at 1. cbn [Account.following Account.set_followers
      Account.set_following Account.user User.following].
    now rewrite Hnow. }
  split.
  - intros target Htarget. unfold follow. rewrite Hnot. cbn [negb].
    rewrite findById_findByIdAndUpdate by reflexivity.
    rewrite equals_refl, findById_save_account.
    change (Account._id (Account.set_following this (Account.following this ++ [userId])))
      with (Account._id this).
    rewrite Htarget.
    destruct (equals (Account._id this) userId) eqn:Eself.
    + apply equals_true in Eself. rewrite <- Eself in Htarget.
      rewrite Hstored in Htarget. injection Htarget as <-.
      eexists. split; [reflexivity |]. cbn. split.
      * rewrite mem_addToSet, equals_refl. apply orb_true_r.
      * intros v Hv. rewrite mem_addToSet.
        replace (equals (Account._id this) v) with false; [apply orb_false_r |].
        symmetry. apply equals_false. congruence.
    + eexists. split; [reflexivity |]. cbn. split.
      * rewrite mem_addToSet, equals_refl. apply orb_true_r.
      * intros v Hv. rewrite mem_addToSet.
        replace (equals (Account._id this) v) with false; [apply orb_false_r |].
        symmetry. apply equals_false. congruence.
  - intros id Hid Hne. unfold follow. rewrite Hnot. cbn [negb].
    rewrite findById_findByIdAndUpdate by reflexivity.
    replace (equals userId id) with false
      by (symmetry; apply equals_false; congruence).
    rewrite findById_save_account.
    change (Account._id (Account.set_following this (Account.following this ++ [userId])))
      with (Account._id this).
    now replace (equals (Account._id this) id) with false
      by (symmetry; apply equals_false; congruence).
Qed.

Lemma follow_adds_edge_witness :
  Account_findById SampleGraph.accounts (Account._id SampleGraph.viewer)
  = Some SampleGraph.viewer
  /\ (isFollowing SampleGraph.viewer 3%N = true ->
      follow SampleGraph.accounts SampleGraph.viewer 3%N = SampleGraph.accounts)
  /\ (isFollowing SampleGraph.viewer 3%N = false ->
      exists this',
        Account_findById (follow SampleGraph.accounts SampleGraph.viewer 3%N)
          (Account._id SampleGraph.viewer) = Some this'
        /\ Account.following this' = Account.following SampleGraph.viewer ++ [3%N]
        /\ isFollowing this' 3%N = true
        /\ (forall v, v <> 3%N -> isFollowing this' v = isFollowing SampleGraph.viewer v)
        /\ (NoDup (Account.following SampleGraph.viewer) ->
            NoDup (Account.following this'))
        /\ follow (follow SampleGraph.accounts SampleGraph.viewer 3%N) this' 3%N
           = follow SampleGraph.accounts SampleGraph.viewer 3%N
        /\ (forall target,
              Account_findById SampleGraph.accounts 3%N = Some target ->
              exists target',
                Account_findById (follow SampleGraph.accounts SampleGraph.viewer 3%N) 3%N
                = Some target'
                /\ mem (Account._id SampleGraph.viewer) (Account.followers target') = true
                /\ (forall v, v <> Account._id SampleGraph.viewer ->
                      mem v (Account.followers target')
                      = mem v (Account.followers target)))
        /\ (forall id, id <> Account._id SampleGraph.viewer -> id <> 3%N ->
              Account_findById (follow SampleGraph.accounts SampleGraph.viewer 3%N) id
              = Account_findById SampleGraph.accounts id)).
Proof.
  split; [reflexivity |].
  apply (follow_adds_edge SampleGraph.accounts SampleGraph.viewer 3%N).
  reflexivity.
Defined.

(** X14: after [unfollow] the stored user does not follow the target any
    more, whatever the number of times the target was in the list; the
    other follow relations of the user are kept, the target, if stored,
    no longer has the user among its followers, the other users are
    untouched; and [unfollow] after [follow], for a target that was not
    followed, gives the user the following list they had. *)
Theorem unfollow_removes_edge (coll : list Account.t) (this : Account.t)
  (userId : ObjectId) :
  Account_findById coll (Account._id this) = Some this ->
  (exists this',
     Account_findById (unfollow coll this userId) (Account._id this) = Some this'
     /\ Account.following this' = pull userId (Account.following this)
     /\ isFollowing this' userId = false
     /\ (forall v, v <> userId -> isFollowing this' v = isFollowing this v))
  /\ (forall target,
        Account_findById coll userId = Some target ->
        exists target',
          Account_findById (unfollow coll this userId) userId = Some target'
          /\ mem (Account._id this) (Account.followers target') = false
          /\ (forall v, v <> Account._id this ->
                mem v (Account.followers target') = mem v (Account.followers target)))
  /\ (forall id, id <> Account._id this -> id <> userId ->
        Account_findById (unfollow coll this userId) id = Account_findById coll id)
  /\ (isFollowing this userId = false ->
      forall this1,
        Account_findById (follow coll this userId) (Account._id this) = Some this1 ->
        exists this2,
          Account_findById (unfollow (follow coll this userId) this1 userId)
            (Account._id this) = Some this2
          /\ Account.following this2 = Account.following this).
Proof.
  intros Hstored.
  assert (Hgone : forall l, mem userId (pull userId l) = false).
  { intros l. rewrite mem_pull, equals_refl. apply andb_false_r. }
  split; [| split; [| split]].
  - destruct (unfollow_this coll this userId Hstored) as [fs Hthis'].
    eexists. split; [exact Hthis' |]. split; [reflexivity |].
    split; [apply Hgone |].
    intros v Hv. unfold isFollowing. cbn. rewrite mem_pull.
    replace (equals userId v) with false; [apply andb_true_r |].
    symmetry. apply equals_false. congruence.
  - intros target Htarget. unfold unfollow.
    rewrite findById_findByIdAndUpdate by reflexivity.
    rewrite equals_refl, findById_save_account.
    change (Account._id (Account.set_following this (pull userId (Account.following this))))
      with (Account._id this).
    rewrite Htarget.
    assert (Hpulled : forall l v,
               (mem (Account._id this) (pull (Account._id this) l) = false)
               /\ (v <> Account._id this -> mem v (pull (Account._id this) l) = mem v l)).
    { intros l v. rewrite !mem_pull, equals_refl. split; [apply andb_false_r |].
      intros Hv. replace (equals (Account._id this) v) with false; [apply andb_true_r |].
      symmetry. apply equals_false. congruence. }
    destruct (equals (Account._id this) userId) eqn:Eself.
    + apply equals_true in Eself. rewrite <- Eself in Htarget.
      rewrite Hstored in Htarget. injection Htarget as <-.
      eexists. split; [reflexivity |]. cbn.
      split; [apply (Hpulled _ userId) | intros v; apply Hpulled].
    + eexists. split; [reflexivity |]. cbn.
      split; [apply (Hpulled _ userId) | intros v; apply Hpulled].
  - intros id Hid Hne. unfold unfollow.
    rewrite findById_findByIdAndUpdate by reflexivity.
    replace (equals userId id) with false
      by (symmetry; apply equals_false; congruence).
    rewrite findById_save_account.
    change (Account._id (Account.set_following this (pull userId (Account.following this))))
      with (Account._id this).
    now replace (equals (Account._id this) id) with false
      by (symmetry; apply equals_false; congruence).
  - unfold isFollowing. intros Hnot this1 H1.
    destruct (follow_this coll this userId Hstored Hnot) as [fs Hthis1].
    rewrite Hthis1 in H1. injection H1 as <-.
    destruct (unfollow_this (follow coll this userId)
                (Account.set_followers
                   (Account.set_following this (Account.following this ++ [userId])) fs)
                userId Hthis1) as [fs2 H2].
    eexists. split; [exact H2 |]. cbn. now apply pull_fresh.
Qed.

Lemma unfollow_removes_edge_witness :
  Account_findById SampleGraph.accounts (Account._id SampleGraph.viewer)
  = Some SampleGraph.viewer
  /\ exists this',
       Account_findById (unfollow SampleGraph.accounts SampleGraph.viewer 2%N)
         (Account._id SampleGraph.viewer) = Some this'
       /\ Account.following this' = pull 2%N (Account.following SampleGraph.viewer)
       /\ isFollowing this' 2%N = false
       /\ (forall v, v <> 2%N -> isFollowing this' v = isFollowing SampleGraph.viewer v).
Proof.
  split; [reflexivity |].
  apply (unfollow_removes_edge SampleGraph.accounts SampleGraph.viewer 2%N).
  reflexivity.
Defined.

(** X15: following and the feeds.  Once a stored viewer has followed a
    user, no page of the viewer's for-you feed holds a post of that user,
    and every stored, active post of that user is on some page of the
    viewer's following query; once the viewer has unfollowed another
    user, no page of the viewer's following feed holds a post of that
    user. *)
Theorem follow_then_feeds
  (throws : Post.t -> bool) (random_sort : list Post.t -> list Post.t)
  (stored : list Post.t) (coll : list Account.t) (this : Account.t) (userId : ObjectId) :
  (forall l, Permutation l (random_sort l)) ->
  Account_findById coll (Account._id this) = Some this ->
  (isFollowing this userId = false ->
   (forall now query_page query_limit body o,
      feed_for_you throws random_sort (db_of stored (follow coll this userId)) now
        (Account._id this) query_page query_limit = Json body ->
      In o (posts body) -> Post.author (doc o) <> userId)
   /\ (forall this' limit p,
         Account_findById (follow coll this userId) (Account._id this) = Some this' ->
         0 < limit ->
         In p stored -> Post.author p = userId -> Post.isActive p = true ->
         exists page ps,
           1 <= page
           /\ following_query (db_of stored (follow coll this userId))
                (Account.user this') page limit = Some ps
           /\ In p ps))
  /\ (userId <> Account._id this ->
      forall query_page query_limit body o,
        feed_following throws (db_of stored (unfollow coll this userId))
          (Account._id this) query_page query_limit = Json body ->
        In o (posts body) -> Post.author (doc o) <> userId).
Proof.
  intros Hperm Hstored. split.
  - unfold isFollowing. intros Hnot.
    destruct (follow_this coll this userId Hstored Hnot) as [fs Hthis'].
    split.
    + intros now query_page query_limit body o Hfeed Hin.
      unfold feed_for_you, db_of in Hfeed. cbn [db_users] in Hfeed.
      rewrite Account_findById_user, Hthis' in Hfeed. cbn [option_map] in Hfeed.
      injection Hfeed as <-. cbn [posts] in Hin.
      apply withUserData_In in Hin. destruct Hin as [Hin _].
      apply (shuffledPosts_candidate _ Hperm) in Hin.
      destruct Hin as (_ & _ & Hex). intros Hauthor. apply Hex.
      cbn. right. apply in_or_app. right. left. now symmetry.
    + intros this' limit p Hlook Hl Hin Hauthor Hact.
      rewrite Hthis' in Hlook. injection Hlook as <-.
      assert (Hc : In p (following_candidates (db_of stored (follow coll this userId))
                           (Account.user
                              (Account.set_followers
                                 (Account.set_following this
                                    (Account.following this ++ [userId])) fs)))).
      { unfold following_candidates. apply sort_In, filter_In.
        split; [exact Hin |]. cbn. rewrite Hact, andb_true_r.
        apply orb_true_iff. right. rewrite mem_app_last, Hauthor, equals_refl.
        apply orb_true_r. }
      destruct (window_covers _ limit p Hl Hc) as [page [Hp Hw]].
      exists page. eexists. split; [exact Hp |].
      split; [apply following_query_window; assumption | exact Hw].
  - intros Hne query_page query_limit body o Hfeed Hin.
    destruct (unfollow_this coll this userId Hstored) as [fs Hthis'].
    unfold feed_following, db_of in Hfeed. cbn [db_users] in Hfeed.
    rewrite Account_findById_user, Hthis' in Hfeed. cbn [option_map] in Hfeed.
    destruct (following_query _ _ _ _) as [ps |] eqn:Eq; [| discriminate].
    injection Hfeed as <-. cbn [posts] in Hin.
    apply withUserData_In in Hin. destruct Hin as [Hin _].
    destruct (following_query_subseq _ _ _ _ _ Eq) as [f [Hsub Hf]].
    apply (subseq_In _ _ Hsub) in Hin. apply sort_In, filter_In in Hin.
    destruct Hin as [_ Hfp]. apply Hf in Hfp.
    destruct Hfp as [_ [Hown | [_ Hfollowed]]]; intros Hauthor.
    + cbn in Hown. unfold Account._id in Hne. congruence.
    + cbn in Hfollowed. rewrite Hauthor in Hfollowed.
      apply mem_In in Hfollowed. rewrite mem_pull, equals_refl in Hfollowed.
      rewrite andb_false_r in Hfollowed. discriminate.
Qed.

Lemma follow_then_feeds_witness :
  ((forall l, Permutation l (Sample.reversing l))
   /\ Account_findById SampleGraph.accounts (Account._id SampleGraph.viewer)
      = Some SampleGraph.viewer)
  /\ (isFollowing SampleGraph.viewer 3%N = false ->
      (forall now query_page query_limit body o,
         feed_for_you Sample.never_throws Sample.reversing
           (db_of (db_posts Sample.db)
              (follow SampleGraph.accounts SampleGraph.viewer 3%N)) now
           (Account._id SampleGraph.viewer) query_page query_limit = Json body ->
         In o (posts body) -> Post.author (doc o) <> 3%N)
      /\ (forall this' limit p,
            Account_findById (follow SampleGraph.accounts SampleGraph.viewer 3%N)
              (Account._id SampleGraph.viewer) = Some this' ->
            0 < limit ->
            In p (db_posts Sample.db) -> Post.author p = 3%N ->
            Post.isActive p = true ->
            exists page ps,
              1 <= page
              /\ following_query
                   (db_of (db_posts Sample.db)
                      (follow SampleGraph.accounts SampleGraph.viewer 3%N))
                   (Account.user this') page limit = Some ps
              /\ In p ps))
  /\ (3%N <> Account._id SampleGraph.viewer ->
      forall query_page query_limit body o,
        feed_following Sample.never_throws
          (db_of (db_posts Sample.db)
             (unfollow SampleGraph.accounts SampleGraph.viewer 3%N))
          (Account._id SampleGraph.viewer) query_page query_limit = Json body ->
        In o (posts body) -> Post.author (doc o) <> 3%N).
Proof.
  assert (Hperm : forall l, Permutation l (Sample.reversing l))
    by (intros l; apply Permutation_rev).
  split; [split; [exact Hperm | reflexivity] |].
  apply (follow_then_feeds Sample.never_throws Sample.reversing (db_posts Sample.db)
           SampleGraph.accounts SampleGraph.viewer 3%N Hperm).
  reflexivity.
Defined.

(** * The per-user rate limit *)

Lemma Map_set_same (m : UserRequests) (k : ObjectId) (v : list Z) :
  Map_set m k v k = Some v.
Proof. unfold Map_set. now rewrite equals_refl. Qed.

Lemma Map_set_other (m : UserRequests) (k k' : ObjectId) (v : list Z) :
  k <> k' -> Map_set m k v k' = m k'.
Proof.
  intros Hne. unfold Map_set.
  now replace (equals k k') with false by (symmetry; now apply equals_false).
Qed.

(** One request of a user, on that user's entry of the map. *)
Lemma userRateLimit_entry (m : UserRequests) (u : ObjectId) (now : Z) :
  let kept := filter (fun time => now - WINDOW_SIZE <? time) (default_to (m u) []) in
  if (MAX_REQUESTS <=? length kept)%nat
  then snd (userRateLimit m (Some u) now) = Status429
       /\ fst (userRateLimit m (Some u) now) u = Some kept
  else snd (userRateLimit m (Some u) now) = Next
       /\ fst (userRateLimit m (Some u) now) u = Some (kept ++ [now]).
Proof.
  intros kept. unfold userRateLimit.
  destruct (m u) as [times |]; cbn [default_to filter] in kept; subst kept;
    rewrite Map_set_same; cbn [default_to];
    destruct (MAX_REQUESTS <=? _)%nat; cbn [fst snd];
    rewrite Map_set_same; split; reflexivity.
Qed.

Lemma userRateLimit_other (m : UserRequests) (req_user : option ObjectId) (now : Z)
  (u : ObjectId) :
  req_user <> Some u -> fst (userRateLimit m req_user now) u = m u.
Proof.
  intros Hne. unfold userRateLimit. destruct req_user as [v |]; [| reflexivity].
  assert (Hvu : v <> u) by congruence.
  destruct (m v); destruct (MAX_REQUESTS <=? length _)%nat; cbn [fst];
    now rewrite ?Map_set_other by assumption.
Qed.

Lemma after_snoc (m : UserRequests) (reqs : list (option ObjectId * Z))
  (req_user : option ObjectId) (now : Z) :
  after m (reqs ++ [(req_user, now)])
  = fst (userRateLimit (after m reqs) req_user now).
Proof.
  revert m. induction reqs as [| [v t] rest IH]; intros m; simpl; [reflexivity |].
  apply IH.
Qed.

Lemma passed_snoc (u : ObjectId) (m : UserRequests)
  (reqs : list (option ObjectId * Z)) (req_user : option ObjectId) (now : Z) :
  passed u m (reqs ++ [(req_user, now)])
  = passed u m reqs
    ++ match req_user, snd (userRateLimit (after m reqs) req_user now) with
       | Some v, Next => if equals v u then [now] else []
       | _, _ => []
       end.
Proof.
  revert m. induction reqs as [| [v t] rest IH]; intros m.
  - change (after m []) with m. cbn [app passed].
    destruct req_user as [v |].
    + destruct (userRateLimit m (Some v) now) as [m' verdict]. cbn [snd].
      destruct verdict; [| reflexivity]. destruct (equals v u); reflexivity.
    + destruct (userRateLimit m None now) as [m' verdict]. reflexivity.
  - cbn [app passed after]. destruct (userRateLimit m v t) as [m' verdict] eqn:E.
    cbn [fst]. rewrite IH.
    destruct v as [v |], verdict; try reflexivity.
    destruct (equals v u); reflexivity.
Qed.

Lemma StronglySorted_snoc {A : Type} (R : A -> A -> Prop) (l : list A) (x : A) :
  StronglySorted R (l ++ [x]) <-> StronglySorted R l /\ Forall (fun y => R y x) l.
Proof.
  induction l as [| a t IH]; simpl.
  - split; [intros _; split; constructor | intros _; repeat constructor].
  - split.
    + intros H. apply StronglySorted_inv in H. destruct H as [Hs Hall].
      apply IH in Hs. destruct Hs as [Hs Hx].
      apply Forall_app in Hall. destruct Hall as [Hall Hax].
      split; constructor; try assumption. now inversion Hax.
    + intros [Hs Hall]. apply StronglySorted_inv in Hs. destruct Hs as [Hs Ha].
      inversion Hall as [| ? ? Hax Hall']; subst.
      constructor; [apply IH; now split |].
      apply Forall_app. split; [assumption | now constructor].
Qed.

Lemma filter_filter_window (s now : Z) (l : list Z) :
  s <= now ->
  filter (fun time => now - WINDOW_SIZE <? time)
    (filter (fun time => s - WINDOW_SIZE <? time) l)
  = filter (fun time => now - WINDOW_SIZE <? time) l.
Proof.
  intros Hle. induction l as [| x t IH]; simpl; [reflexivity |].
  destruct (s - WINDOW_SIZE <? x) eqn:Es; simpl.
  - now rewrite IH.
  - rewrite IH. destruct (now - WINDOW_SIZE <? x) eqn:En; [| reflexivity].
    apply Z.ltb_lt in En. apply Z.ltb_ge in Es. lia.
Qed.

Lemma filter_window_suffix (c : Z) (l : list Z) (i : nat) (t : Z) :
  StronglySorted Z.le l -> nth_error l i = Some t -> c < t ->
  (length l - i <= length (filter (fun time => (c <? time)%Z) l))%nat.
Proof.
  intros Hs. revert i. induction Hs as [| x rest Hs IH Hall]; intros i Hnth Hlt.
  - destruct i; discriminate.
  - destruct i as [| i]; simpl in Hnth.
    + injection Hnth as ->.
      assert (Hkeep : filter (fun time => c <? time) (t :: rest) = t :: rest).
      { apply forallb_filter_id. simpl. apply andb_true_iff. split.
        - now apply Z.ltb_lt.
        - apply forallb_forall. intros y Hy. rewrite Forall_forall in Hall.
          specialize (Hall y Hy). apply Z.ltb_lt. lia. }
      rewrite Hkeep. lia.
    + specialize (IH i Hnth Hlt). simpl.
      destruct (c <? x); simpl; lia.
Qed.

Lemma option_eq_dec_user (req_user : option ObjectId) (u : ObjectId) :
  {req_user = Some u} + {req_user <> Some u}.
Proof.
  destruct req_user as [v |]; [| right; discriminate].
  destruct (N.eq_dec v u) as [-> | Hne]; [now left | right; congruence].
Qed.

Lemma WINDOW_SIZE_positive : 0 < WINDOW_SIZE.
Proof. reflexivity. Qed.

Lemma spaced_snoc (hist : list Z) (now : Z) :
  StronglySorted Z.le hist -> spaced hist ->
  (MAX_REQUESTS <=? length (filter (fun time => (now - WINDOW_SIZE <? time)%Z) hist))%nat
  = false ->
  spaced (hist ++ [now]).
Proof.
  intros Hsorted Hspaced Hroom i t t' Hi Hj.
  apply Nat.leb_gt in Hroom.
  destruct (Nat.lt_trichotomy (i + MAX_REQUESTS) (length hist)) as [Hlt | [Heq | Hgt]].
  - rewrite nth_error_app1 in Hi, Hj by lia. eapply Hspaced; eassumption.
  - rewrite nth_error_app2 in Hj by lia.
    replace (i + MAX_REQUESTS - length hist)%nat with 0%nat in Hj by lia.
    injection Hj as <-.
    assert (Hi' : (i < length hist)%nat)
      by (unfold MAX_REQUESTS in Heq; lia).
    rewrite nth_error_app1 in Hi by exact Hi'.
    destruct (Z_lt_le_dec (now - WINDOW_SIZE) t) as [Hin | Hout]; [| lia].
    pose proof (filter_window_suffix _ _ _ _ Hsorted Hi Hin) as Hlen. lia.
  - rewrite nth_error_app2 in Hj by lia.
    destruct (i + MAX_REQUESTS - length hist)%nat as [| k] eqn:Ek; [lia |].
    simpl in Hj. destruct k; discriminate.
Qed.

(** What the map holds for a user after a chronological sequence of
    requests: the times, within the window of the user's last request, of
    the user's requests that went on. *)
Lemma after_invariant (u : ObjectId) (reqs : list (option ObjectId * Z)) :
  chronological reqs ->
  StronglySorted Z.le (passed u Map_empty reqs)
  /\ spaced (passed u Map_empty reqs)
  /\ ((after Map_empty reqs u = None /\ passed u Map_empty reqs = [])
      \/ exists s,
           In s (map snd reqs)
           /\ Forall (fun t => t <= s) (passed u Map_empty reqs)
           /\ after Map_empty reqs u
              = Some (filter (fun time => s - WINDOW_SIZE <? time)
                        (passed u Map_empty reqs))).
Proof.
  induction reqs as [| [req_user now] reqs IH] using rev_ind.
  - intros _. split; [constructor |]. split.
    + intros i t t' Hi. destruct i; discriminate.
    + left. split; reflexivity.
  - unfold chronological. rewrite map_app. cbn [map snd].
    rewrite StronglySorted_snoc. intros [Hchrono Hbefore].
    destruct (IH Hchrono) as (Hsorted & Hspaced & Hstate). clear IH.
    rewrite Forall_forall in Hbefore.
    rewrite after_snoc, passed_snoc.
    set (m := after Map_empty reqs) in *.
    set (hist := passed u Map_empty reqs) in *.
    assert (Hkept : filter (fun time => now - WINDOW_SIZE <? time) (default_to (m u) [])
                    = filter (fun time => now - WINDOW_SIZE <? time) hist
                    /\ Forall (fun t => t <= now) hist).
    { destruct Hstate as [[Hnone Hempty] | (s & Hs & Hle & Hsome)].
      - rewrite Hnone, Hempty. split; [reflexivity | constructor].
      - rewrite Hsome. cbn [default_to]. specialize (Hbefore s Hs). split.
        + now apply filter_filter_window.
        + eapply Forall_impl; [| exact Hle]. simpl. intros t Ht. lia. }
    destruct Hkept as [Hkept Hle_now].
    destruct (option_eq_dec_user req_user u) as [-> | Hother].
    + pose proof (userRateLimit_entry m u now) as Hentry. cbv zeta in Hentry.
      rewrite Hkept in Hentry.
      destruct (MAX_REQUESTS <=? length _)%nat eqn:Hfull;
        destruct Hentry as [Hverdict Hentry]; rewrite Hverdict.
      * rewrite app_nil_r. split; [assumption |]. split; [assumption |].
        right. exists now. split; [apply in_or_app; right; now left |].
        split; [assumption | exact Hentry].
      * rewrite equals_refl.
        split; [apply StronglySorted_snoc; now split |].
        split; [now apply spaced_snoc |].
        right. exists now. split; [apply in_or_app; right; now left |].
        split.
        -- apply Forall_app. split; [assumption |]. constructor; [lia | constructor].
        -- rewrite Hentry, filter_app. cbn [filter].
           pose proof WINDOW_SIZE_positive.
           now replace (now - WINDOW_SIZE <? now) with true
             by (symmetry; apply Z.ltb_lt; lia).
    + rewrite userRateLimit_other by exact Hother.
      replace (passed u Map_empty reqs ++ _) with hist.
      2:{ symmetry. destruct req_user as [v |]; [| apply app_nil_r].
          replace (equals v u) with false
            by (symmetry; apply equals_false; congruence).
          destruct (snd _); apply app_nil_r. }
      split; [assumption |]. split; [assumption |].
      destruct Hstate as [Hleft | (s & Hs & Hrest)]; [now left |].
      right. exists s. split; [apply in_or_app; now left | exact Hrest].
Qed.

Lemma kept_is_passed_window (u : ObjectId) (reqs : list (option ObjectId * Z))
  (req_user : option ObjectId) (now : Z) :
  chronological (reqs ++ [(req_user, now)]) ->
  filter (fun time => now - WINDOW_SIZE <? time)
    (default_to (after Map_empty reqs u) [])
  = filter (fun time => now - WINDOW_SIZE <? time) (passed u Map_empty reqs).
Proof.
  unfold chronological. rewrite map_app. cbn [map snd].
  rewrite StronglySorted_snoc. intros [Hchrono Hbefore].
  destruct (after_invariant u reqs Hchrono) as (_ & _ & Hstate).
  rewrite Forall_forall in Hbefore.
  destruct Hstate as [[Hnone Hempty] | (s & Hs & _ & Hsome)].
  - now rewrite Hnone, Hempty.
  - rewrite Hsome. cbn [default_to]. apply filter_filter_window. now apply Hbefore.
Qed.

(** X16: after a chronological sequence of requests, the rate limit lets
    a request of a user go on exactly when fewer than 200 earlier requests
    of that user went on within the last 15 minutes, the rejected ones not
    being counted; a request without user always goes on and leaves the
    map as it is. *)
Theorem userRateLimit_verdict (reqs : list (option ObjectId * Z)) (u : ObjectId)
  (now : Z) :
  chronological (reqs ++ [(Some u, now)]) ->
  (snd (userRateLimit (after Map_empty reqs) (Some u) now) = Next
   <-> (length (filter (fun time => (now - WINDOW_SIZE <? time)%Z)
                  (passed u Map_empty reqs)) < MAX_REQUESTS)%nat)
  /\ (snd (userRateLimit (after Map_empty reqs) (Some u) now) = Status429 ->
      passed u Map_empty (reqs ++ [(Some u, now)]) = passed u Map_empty reqs)
  /\ (snd (userRateLimit (after Map_empty reqs) (Some u) now) = Next ->
      passed u Map_empty (reqs ++ [(Some u, now)]) = passed u Map_empty reqs ++ [now])
  /\ userRateLimit (after Map_empty reqs) None now = (after Map_empty reqs, Next).
Proof.
  intros Hchrono.
  pose proof (kept_is_passed_window u reqs (Some u) now Hchrono) as Hkept.
  pose proof (userRateLimit_entry (after Map_empty reqs) u now) as Hentry.
  cbv zeta in Hentry. rewrite Hkept in Hentry.
  rewrite passed_snoc, equals_refl.
  destruct (MAX_REQUESTS <=? length _)%nat eqn:Hfull;
    destruct Hentry as [Hverdict _]; rewrite Hverdict.
  - apply Nat.leb_le in Hfull.
    split; [split; [discriminate | lia] |].
    split; [intros _; apply app_nil_r |].
    split; [discriminate | reflexivity].
  - apply Nat.leb_gt in Hfull.
    split; [split; [intros _; exact Hfull | reflexivity] |].
    split; [discriminate |].
    split; reflexivity.
Qed.

Lemma userRateLimit_verdict_witness :
  chronological (SampleRequests.few ++ [(Some 1%N, 30)])
  /\ (snd (userRateLimit (after Map_empty SampleRequests.few) (Some 1%N) 30) = Next
      <-> (length (filter (fun time => (30 - WINDOW_SIZE <? time)%Z)
                     (passed 1%N Map_empty SampleRequests.few))
           < MAX_REQUESTS)%nat).
Proof.
  assert (Hchrono : chronological (SampleRequests.few ++ [(Some 1%N, 30)])).
  { unfold chronological. simpl. repeat constructor; lia. }
  split; [exact Hchrono |].
  apply (userRateLimit_verdict SampleRequests.few 1%N 30 Hchrono).
Defined.

(** X17: in a chronological sequence of requests, between a request of a
    user that the rate limit lets go on and the 200th request of that
    user it lets go on after it, at least 15 minutes pass. *)
Theorem userRateLimit_window (reqs : list (option ObjectId * Z)) (u : ObjectId)
  (i : nat) (t t' : Z) :
  chronological reqs ->
  nth_error (passed u Map_empty reqs) i = Some t ->
  nth_error (passed u Map_empty reqs) (i + 200) = Some t' ->
  t + 15 * 60 * 1000 <= t'.
Proof.
  intros Hchrono Hi Hj.
  destruct (after_invariant u reqs Hchrono) as (_ & Hspaced & _).
  exact (Hspaced i t t' Hi Hj).
Qed.

Lemma burst_chronological : chronological SampleRequests.burst.
Proof.
  unfold chronological. apply Sorted_StronglySorted.
  - intros a b c. apply Z.le_trans.
  - vm_compute. repeat (constructor; [| try constructor; intro H; discriminate H]).
    constructor.
Qed.

Lemma userRateLimit_window_witness :
  (chronological SampleRequests.burst
   /\ nth_error (passed 1%N Map_empty SampleRequests.burst) 0 = Some 0
   /\ nth_error (passed 1%N Map_empty SampleRequests.burst) (0 + 200) = Some 900000)
  /\ 0 + 15 * 60 * 1000 <= 900000.
Proof.
  assert (H0 : nth_error (passed 1%N Map_empty SampleRequests.burst) 0 = Some 0)
    by (vm_compute; reflexivity).
  assert (H200 : nth_error (passed 1%N Map_empty SampleRequests.burst) (0 + 200)
                 = Some 900000)
    by (vm_compute; reflexivity).
  split; [split; [exact burst_chronological | split; assumption] |].
  exact (userRateLimit_window SampleRequests.burst 1%N 0 0 900000
           burst_chronological H0 H200).
Defined.

Lemma after_app (m : UserRequests) (r1 r2 : list (option ObjectId * Z)) :
  after m (r1 ++ r2) = after (after m r1) r2.
Proof.
  revert m. induction r1 as [| [v t] rest IH]; intros m; simpl; [reflexivity |].
  apply IH.
Qed.

Lemma userRateLimit_keeps_keys (m : UserRequests) (req_user : option ObjectId)
  (now : Z) (u : ObjectId) :
  m u <> None -> fst (userRateLimit m req_user now) u <> None.
Proof.
  intros Hsome. destruct (option_eq_dec_user req_user u) as [-> | Hother].
  - pose proof (userRateLimit_entry m u now) as Hentry. cbv zeta in Hentry.
    destruct (MAX_REQUESTS <=? length _)%nat; destruct Hentry as [_ ->]; discriminate.
  - now rewrite userRateLimit_other.
Qed.

Lemma after_keeps_keys (m : UserRequests) (reqs : list (option ObjectId * Z))
  (u : ObjectId) :
  m u <> None -> after m reqs u <> None.
Proof.
  revert m. induction reqs as [| [v t] rest IH]; intros m Hsome; simpl.
  - assumption.
  - apply IH. now apply userRateLimit_keeps_keys.
Qed.

(** X18: whatever the requests, the map of the rate limit holds an entry
    only for users that made a request, an entry never holds more than 200
    times, and an entry, once made, is never removed. *)
Theorem userRateLimit_memory (reqs more : list (option ObjectId * Z)) (u : ObjectId)
  (times : list Z) :
  after Map_empty reqs u = Some times ->
  (length times <= 200)%nat
  /\ (exists now, In (Some u, now) reqs)
  /\ after Map_empty (reqs ++ more) u <> None.
Proof.
  intros Hstored. split; [| split].
  - revert times Hstored.
    induction reqs as [| [req_user now] reqs IH] using rev_ind; intros times Hstored.
    + discriminate.
    + rewrite after_snoc in Hstored.
      destruct (option_eq_dec_user req_user u) as [-> | Hother].
      * pose proof (userRateLimit_entry (after Map_empty reqs) u now) as Hentry.
        cbv zeta in Hentry.
        assert (Hkept : (length (filter (fun time => (now - WINDOW_SIZE <? time)%Z)
                                   (default_to (after Map_empty reqs u) []))
                         <= 200)%nat).
        { destruct (after Map_empty reqs u) as [l |] eqn:El; cbn [default_to].
          - pose proof (subseq_length _ _
                          (subseq_filter (fun time => now - WINDOW_SIZE <? time) l)).
            specialize (IH l eq_refl). lia.
          - simpl. lia. }
        destruct (MAX_REQUESTS <=? length _)%nat eqn:Hfull;
          destruct Hentry as [_ Hentry]; rewrite Hentry in Hstored;
          injection Hstored as <-.
        -- exact Hkept.
        -- apply Nat.leb_gt in Hfull. unfold MAX_REQUESTS in Hfull.
           rewrite length_app. simpl. lia.
      * rewrite userRateLimit_other in Hstored by exact Hother. now apply IH.
  - revert times Hstored.
    induction reqs as [| [req_user now] reqs IH] using rev_ind; intros times Hstored.
    + discriminate.
    + rewrite after_snoc in Hstored.
      destruct (option_eq_dec_user req_user u) as [-> | Hother].
      * exists now. apply in_or_app. right. now left.
      * rewrite userRateLimit_other in Hstored by exact Hother.
        destruct (IH _ Hstored) as [t Ht]. exists t. apply in_or_app. now left.
  - rewrite after_app. apply after_keeps_keys. now rewrite Hstored.
Qed.

Lemma userRateLimit_memory_witness :
  after Map_empty SampleRequests.few 1%N = Some [10]
  /\ (length [10] <= 200)%nat
  /\ (exists now, In (Some 1%N, now) SampleRequests.few)
  /\ after Map_empty (SampleRequests.few ++ [(Some 2%N, 40)]) 1%N <> None.
Proof.
  split; [reflexivity |].
  apply (userRateLimit_memory SampleRequests.few [(Some 2%N, 40)] 1%N [10]).
  reflexivity.
Defined.
